(** * Numeric search strategies of Hypothesis and the Twisted driver

    A shallow embedding of [src/hypothesis/searchstrategy/numbers.py] and
    [src/hypothesis/extra/twisted.py].

    - Python integers are [Z] (arbitrary precision, as in Python).
    - A generator function whose body only yields is the list of the values
      it yields, in order; a generator that can raise in the middle is a pair
      of the values yielded so far and the way it stopped.
    - A Python float is its eight bytes of memory (IEEE-754 binary64); its
      arithmetic is the Standard Library's [SpecFloat] at precision 53.
    - The [random] module is an interface: a state, a seeding function and
      [randbelow]; the range of [randbelow] is a hypothesis where needed. *)

From Stdlib Require Import ZArith List Lia Bool String.
From Stdlib Require Import Strings.Byte.
From Stdlib Require Import Floats.SpecFloat.
From stdpp Require Import base decidable countable gmap.
From Equations Require Import Equations.
From Equations.Prop Require Import Logic.
Import ListNotations.

Local Open Scope Z_scope.

(* ================================================================== *)
(** * Python values, exceptions and results *)
(* ================================================================== *)

Module Py.

(** The exception classes that cross the functions modelled here. *)
Inductive exn : Type :=
| BadData (arg : string)
| ValueError (arg : string)
| OverflowError (arg : string)
| IndexError (arg : string)
| StructError (arg : string)
| InvalidRange (start stop : Z)
    (* ValueError('Invalid range [%d, %d]' % (start, end)) *)
| OtherError (cls : string) (arg : string).

(** The result of a call: a value or a raised exception. *)
Inductive result (A : Type) : Type :=
| Ok (a : A)
| Raise (e : exn).
Arguments Ok {A} a.
Arguments Raise {A} e.

Definition bind {A B : Type} (r : result A) (k : A -> result B) : result B :=
  match r with
  | Ok a => k a
  | Raise e => Raise e
  end.

Definition is_BadData (e : exn) : bool :=
  match e with BadData _ => true | _ => false end.

(** [hrange(start, stop, step)]: the integers [start + i*step] before
    [stop]; [step] is not zero at any call site. *)
Definition hrange3 (start stop step : Z) : list Z :=
  let n := if 0 <? step
           then (stop - start + step - 1) / step
           else (start - stop - step - 1) / (- step) in
  map (fun i => start + Z.of_nat i * step) (seq 0 (Z.to_nat n)).

Definition hrange (start stop : Z) : list Z := hrange3 start stop 1.

End Py.

#[global] Instance result_ret : MRet Py.result := fun A a => Py.Ok a.
#[global] Instance result_bind : MBind Py.result := fun A B k r => Py.bind r k.

(* ================================================================== *)
(** * Python floats: eight bytes, IEEE-754 binary64 *)
(* ================================================================== *)

Module Bytes.

Definition byte_to_Z (b : byte) : Z := Z.of_N (Byte.to_N b).

Definition byte_of_Z (z : Z) : byte :=
  match Byte.of_N (Z.to_N z) with
  | Some b => b
  | None => x00
  end.

(** The unsigned integer a byte string denotes, most significant byte
    first (network order, the [!] of the struct formats). *)
Definition be_to_Z (bs : list byte) : Z :=
  fold_left (fun acc b => acc * 256 + byte_to_Z b) bs 0.

(** The [n] bytes of [v], most significant first. *)
Fixpoint be_of_Z (n : nat) (v : Z) : list byte :=
  match n with
  | O => []
  | S k => byte_of_Z ((v / 256 ^ Z.of_nat k) mod 256) :: be_of_Z k v
  end.

End Bytes.

Module Float.

(** A float is the eight bytes of its binary64 representation,
    [byte0] holding the sign and the top of the exponent. *)
Record t : Type := Build {
  byte0 : byte; byte1 : byte; byte2 : byte; byte3 : byte;
  byte4 : byte; byte5 : byte; byte6 : byte; byte7 : byte
}.

Definition bytes (x : t) : list byte :=
  [byte0 x; byte1 x; byte2 x; byte3 x; byte4 x; byte5 x; byte6 x; byte7 x].

Definition of_bytes (bs : list byte) : option t :=
  match bs with
  | [a; b; c; d; e; f; g; h] => Some (Build a b c d e f g h)
  | _ => None
  end.

(** The 64-bit pattern, as an unsigned integer. *)
Definition bits (x : t) : Z := Bytes.be_to_Z (bytes x).

Definition of_bits (z : Z) : t :=
  match of_bytes (Bytes.be_of_Z 8 z) with
  | Some x => x
  | None => Build x00 x00 x00 x00 x00 x00 x00 x00
  end.

Definition prec : Z := 53.
Definition emax : Z := 1024.

(** The sign, exponent and fraction fields put together, as in
    [compose_float]: [(sign << 63) | (exponent << 52) | fraction]. *)
Definition compose_bits (sign exponent fraction : Z) : Z :=
  Z.lor (Z.lor (Z.shiftl sign 63) (Z.shiftl exponent 52)) fraction.

(** The value a bit pattern denotes. *)
Definition to_spec (x : t) : spec_float :=
  let b := bits x in
  let s := Z.testbit b 63 in
  let e := Z.land (Z.shiftr b 52) 2047 in
  let f := Z.land b (2 ^ 52 - 1) in
  if e =? 0 then
    match f with
    | Zpos m => S754_finite s m (-1074)
    | _ => S754_zero s
    end
  else if e =? 2047 then
    (if f =? 0 then S754_infinity s else S754_nan)
  else
    match f + 2 ^ 52 with
    | Zpos m => S754_finite s m (e - 1075)
    | _ => S754_nan
    end.

(** The bit pattern of a value; a NaN produced by arithmetic is the
    quiet NaN [0x7ff8000000000000]. *)
Definition of_spec (f : spec_float) : t :=
  of_bits
    match f with
    | S754_zero s => compose_bits (Z.b2z s) 0 0
    | S754_infinity s => compose_bits (Z.b2z s) 2047 0
    | S754_nan => compose_bits 0 2047 (2 ^ 51)
    | S754_finite s m e =>
        if Zpos m <? 2 ^ 52
        then compose_bits (Z.b2z s) 0 (Zpos m)
        else compose_bits (Z.b2z s) (e + 1075) (Zpos m - 2 ^ 52)
    end.

Definition zero : t := of_spec (S754_zero false).
Definition neg_zero : t := of_spec (S754_zero true).
Definition one : t := of_spec (S754_finite false (2 ^ 52) (-52)).
Definition two : t := of_spec (S754_finite false (2 ^ 52) (-51)).
Definition half : t := of_spec (S754_finite false (2 ^ 52) (-53)).
Definition three : t := of_spec (S754_finite false (3 * 2 ^ 51) (-51)).
Definition inf : t := of_spec (S754_infinity false).
Definition neg_inf : t := of_spec (S754_infinity true).
Definition nan : t := of_spec S754_nan.
(** [sys.float_info.max] *)
Definition max : t := of_spec (SFmax_float prec emax).
(** The least positive subnormal, [5e-324]. *)
Definition min_subnormal : t := of_spec (S754_finite false 1 (-1074)).

(** Comparisons: [x == y], [x != y], [x < y]. *)
Definition eqb (x y : t) : bool := SFeqb (to_spec x) (to_spec y).
Definition neb (x y : t) : bool := negb (eqb x y).
Definition ltb (x y : t) : bool := SFltb (to_spec x) (to_spec y).

Definition isnan (x : t) : bool :=
  match to_spec x with S754_nan => true | _ => false end.
Definition isinf (x : t) : bool :=
  match to_spec x with S754_infinity _ => true | _ => false end.

(** [-x] and [abs(x)] act on the sign bit alone. *)
Definition neg (x : t) : t := of_bits (Z.lxor (bits x) (2 ^ 63)).
Definition abs (x : t) : t := of_bits (Z.land (bits x) (2 ^ 63 - 1)).
(** [math.copysign(x, y)]: the magnitude of [x], the sign bit of [y]. *)
Definition copysign (x y : t) : t :=
  of_bits (Z.lor (Z.land (bits x) (2 ^ 63 - 1)) (Z.land (bits y) (2 ^ 63))).

Definition add (x y : t) : t := of_spec (SFadd prec emax (to_spec x) (to_spec y)).
Definition div (x y : t) : t := of_spec (SFdiv prec emax (to_spec x) (to_spec y)).

(** [int(x)]: truncation toward zero; ValueError on NaN, OverflowError
    on an infinity. *)
Definition to_int (x : t) : Py.result Z :=
  match to_spec x with
  | S754_nan => Py.Raise (Py.ValueError "cannot convert float NaN to integer")
  | S754_infinity _ =>
      Py.Raise (Py.OverflowError "cannot convert float infinity to integer")
  | S754_zero _ => Py.Ok 0
  | S754_finite s m e =>
      let a := Z.shiftl (Zpos m) e in
      Py.Ok (if s then - a else a)
  end.

(** [float(n)] and the conversion of an int operand of float
    arithmetic: round to nearest even, OverflowError when the result
    would not be finite. *)
Definition of_int (n : Z) : Py.result t :=
  match binary_normalize prec emax n 0 false with
  | S754_infinity _ | S754_nan =>
      Py.Raise (Py.OverflowError "int too large to convert to float")
  | f => Py.Ok (of_spec f)
  end.

(** The same conversion without the check: past the largest float the
    result is an infinity. *)
Definition of_Z (n : Z) : t := of_spec (binary_normalize prec emax n 0 false).

(** [x + k] for a float [x] and an int [k]. *)
Definition add_int (x : t) (k : Z) : Py.result t :=
  y ← of_int k; Py.Ok (add x y).

(** [min(a, b)]: [b] when [b < a], else [a]. *)
Definition min (a b : t) : t := if ltb b a then b else a.

End Float.

Module PyObj.

(** The objects handed to the serialization functions. *)
Inductive t : Type :=
| PyNone
| PyBool (b : bool)
| PyInt (n : Z)
| PyFloat (x : Float.t)
| PyStr (s : string).

(** [isinstance(value, integer_types)]; [bool] is a subclass of [int]. *)
Definition is_integer (v : t) : bool :=
  match v with PyInt _ | PyBool _ => true | _ => false end.

Definition is_float (v : t) : bool :=
  match v with PyFloat _ => true | _ => false end.

(** The integer an instance of [integer_types] denotes. *)
Definition int_value (v : t) : Z :=
  match v with
  | PyInt n => n
  | PyBool b => Z.b2z b
  | _ => 0
  end.

End PyObj.

(* ================================================================== *)
(** * Integer objects and their types *)
(* ================================================================== *)

Module Integer.

(** The types of the instances of [integer_types]: [int], its subclass
    [bool] and, under Python 2, [long]. *)
Inductive type : Type :=
| bool_type
| int_type
| long_type.

#[global] Instance type_eq_dec : EqDecision type.
Proof. solve_decision. Defined.

(** An integer object: its type and its value. *)
Inductive t : Type :=
| Bool (b : bool)
| Int (n : Z)
| Long (n : Z).

Definition type_of (x : t) : type :=
  match x with
  | Bool _ => bool_type
  | Int _ => int_type
  | Long _ => long_type
  end.

Definition value (x : t) : Z :=
  match x with
  | Bool b => Z.b2z b
  | Int n | Long n => n
  end.

(** [x == y] compares the values, whatever the types: [True == 1] and,
    under Python 2, [5L == 5]. *)
Definition eqb (x y : t) : bool := value x =? value y.

(** The integer object that a basic value accepted by [from_basic]
    is. *)
Definition of_obj (v : PyObj.t) : option t :=
  match v with
  | PyObj.PyBool b => Some (Bool b)
  | PyObj.PyInt n => Some (Int n)
  | _ => None
  end.

Section Version.

(** [sys.maxint] under Python 2, where an [int] is a machine word and
    an integer result that does not fit in one is a [long]; [None] under
    Python 3, whose [int] is unbounded. *)
Context (maxint : option Z).

Definition fits (n : Z) : bool :=
  match maxint with
  | None => true
  | Some m => (- m - 1 <=? n) && (n <=? m)
  end.

(** The object with value [n] that a conversion to [int] or an
    operation on [int]s returns. *)
Definition of_Z (n : Z) : t := if fits n then Int n else Long n.

(** [int(x)]: an [int] is returned as it is, a [bool] becomes an
    [int], a [long] becomes an [int] when it fits. *)
Definition int (x : t) : t :=
  match x with
  | Bool b => Int (Z.b2z b)
  | Int n => Int n
  | Long n => of_Z n
  end.

(** [-x]: a [long] stays a [long]. *)
Definition neg (x : t) : t :=
  match x with
  | Bool b => Int (- Z.b2z b)
  | Int n => of_Z (- n)
  | Long n => Long (- n)
  end.

(** [x // d] for an [int] literal [d > 0]: the quotient of an [int]
    fits in an [int]; a [long] stays a [long]. *)
Definition floordiv (x : t) (d : Z) : t :=
  match x with
  | Bool b => Int (Z.b2z b / d)
  | Int n => Int (n / d)
  | Long n => Long (n / d)
  end.

End Version.

End Integer.

(* ================================================================== *)
(** * The struct module: formats [!d] and [!Q] *)
(* ================================================================== *)

Module Struct.

(** [struct.pack(b'!d', value)] *)
Definition pack_d (value : Float.t) : list byte := Float.bytes value.

(** [struct.unpack(b'!Q', data)[0]] *)
Definition unpack_Q (data : list byte) : Py.result Z :=
  if Nat.eqb (List.length data) 8 then Py.Ok (Bytes.be_to_Z data)
  else Py.Raise (Py.StructError "unpack requires a buffer of 8 bytes").

(** [struct.pack(b'!Q', value)] for an integer [value]: struct.error
    unless [0 <= value < 2**64]. *)
Definition pack_Q (value : Z) : Py.result (list byte) :=
  if (0 <=? value) && (value <? 2 ^ 64) then Py.Ok (Bytes.be_of_Z 8 value)
  else Py.Raise (Py.StructError "argument out of range").

(** [struct.unpack(b'!d', data)[0]] *)
Definition unpack_d (data : list byte) : Py.result Float.t :=
  match Float.of_bytes data with
  | Some x => Py.Ok x
  | None => Py.Raise (Py.StructError "unpack requires a buffer of 8 bytes")
  end.

End Struct.


(* ================================================================== *)
(** * The [random] module, as an interface *)
(* ================================================================== *)

Module PyRandom.

(** [Random(seed)] builds a state; [randbelow r n] draws from
    [range(n)] and advances the state. *)
Record t : Type := Build {
  state : Type;
  Random : Z -> state;
  randbelow : state -> Z -> Z * state
}.

(** What the library promises about [randbelow]. *)
Definition randbelow_in_range (R : t) : Prop :=
  forall (r : state R) (n : Z), 0 < n -> 0 <= fst (randbelow R r n) < n.

(** [random.randint(a, b)] is [a + randbelow(b - a + 1)]. *)
Definition randint (R : t) (r : state R) (a b : Z) : Z * state R :=
  let (k, r') := randbelow R r (b - a + 1) in (a + k, r').

(** [random.choice(seq)] is [seq[randbelow(len(seq))]]; an empty
    sequence raises IndexError. *)
Definition choice (R : t) (r : state R) (seq : list Z) : Py.result (Z * state R) :=
  match seq with
  | [] => Py.Raise (Py.IndexError "Cannot choose from an empty sequence")
  | d :: _ =>
      let (k, r') := randbelow R r (Z.of_nat (List.length seq)) in
      Py.Ok (nth (Z.to_nat k) seq d, r')
  end.

(** A linear congruential generator, as one concrete instance. *)
Definition lcg_next (s : Z) : Z := (6364136223846793005 * s + 1442695040888963407) mod 2 ^ 64.

Definition lcg : t :=
  {| state := Z;
     Random := fun seed => seed mod 2 ^ 64;
     randbelow := fun s n => let s' := lcg_next s in ((s' / 2 ^ 16) mod n, s') |}.

End PyRandom.

(* ================================================================== *)
(** * The helpers imported from [hypothesis.searchstrategy.strategy] *)
(* ================================================================== *)

Module Strategy.

(** [check_type(typ, value)] returns when [value] is an instance of
    [typ] and raises otherwise. The module that defines it is not among
    the sources, so the exception it raises is the parameter
    [type_error]; [is_instance] is the outcome of the [isinstance]
    test. *)
Definition check_type (type_error : Py.exn) (is_instance : bool) : Py.result unit :=
  if is_instance then Py.Ok tt else Py.Raise type_error.

(** Modelled from the spec: [check_data_type], of the same missing
    module, the check that [from_basic] of the integer strategies makes;
    a mismatch is a BadData error ("fails with BadData on schema
    mismatch"). *)
Definition check_data_type (is_instance : bool) : Py.result unit :=
  if is_instance then Py.Ok tt
  else Py.Raise (Py.BadData "value is not an instance of the expected type").

End Strategy.

(* ================================================================== *)
(** * IntStrategy *)
(* ================================================================== *)

Module IntStrategy.
Section WithRandom.

Context (maxint : option Z) (R : PyRandom.t).

Definition max_iters : Z := 100.

(** The loop of the large case:
  [for _ in hrange(max_iters): i = random.randint(0, x - 1); ...].
  The set [seen] holds values ([hash] and [==] do not see the type);
  [x] is the value of the template. *)
Fixpoint sample_loop (iters : nat) (random : PyRandom.state R)
  (seen : gset Z) (x : Z) : list Integer.t :=
match iters with
| O => []
| S k =>
    let (i, random') := PyRandom.randint R random 0 (x - 1) in
    (if decide (i ∈ seen) then [] else [Integer.of_Z maxint i])
      ++ sample_loop k random' ({[ i ]} ∪ seen) x
end.

(** [ix = int(x)], then [if type(ix) != type(x): yield ix]. *)
Definition simplify_type (x : Integer.t) : list Integer.t :=
let ix := Integer.int maxint x in
if decide (Integer.type_of ix <> Integer.type_of x) then [ix] else [].

(** The branch [elif x > 0]. The literal [0] and the items of [hrange]
  are [int]s. *)
Definition simplify_positive (x : Integer.t) : list Integer.t :=
let v := Integer.value x in
Integer.Int 0 ::
(if v =? 1 then []
 else
   Integer.floordiv x 2 ::
   (if v =? 2 then []
    else if v <=? max_iters
    then map Integer.Int
           (List.filter (fun i => negb (i =? v / 2)) (Py.hrange3 (v - 1) 0 (-1)))
    else sample_loop (Z.to_nat max_iters) (PyRandom.Random R v)
           ({[ 0; v / 2 ]} : gset Z) v)).

(** [IntStrategy.simplify]. The negative case calls [simplify] again,
  on [-x]. *)
Equations? simplify (x : Integer.t) : list Integer.t
  by wf (if Integer.value x <? 0 then 1%nat else 0%nat) lt :=
simplify x with inspect (Integer.value x <? 0) := {
  | exist _ true Hneg =>
      simplify_type x ++
      Integer.neg maxint x :: map (Integer.neg maxint) (simplify (Integer.neg maxint x))
  | exist _ false Hnn with inspect (0 <? Integer.value x) := {
      | exist _ true Hpos => simplify_type x ++ simplify_positive x
      | exist _ false Hz => simplify_type x
    }
}.
Proof.
rewrite Hneg.
assert (Hx : (Integer.value (Integer.neg maxint x) <? 0) = false).
{ apply Z.ltb_ge. apply Z.ltb_lt in Hneg.
  destruct x as [[]|n|n]; cbn in *; unfold Integer.of_Z;
    try destruct (Integer.fits maxint (- n)); cbn; lia. }
rewrite Hx. constructor.
Defined.

End WithRandom.

(** [from_basic]: [check_data_type(integer_types, data)], then the data
    itself. *)
Definition from_basic (data : PyObj.t) : Py.result PyObj.t :=
  _ ← Strategy.check_data_type (PyObj.is_integer data); Py.Ok data.

(** [to_basic]: the template itself, an int object. *)
Definition to_basic (template : Z) : PyObj.t := PyObj.PyInt template.

End IntStrategy.

(* ================================================================== *)
(** * BoundedIntStrategy *)
(* ================================================================== *)

Module BoundedIntStrategy.

(** [params.NonEmptySubset(elements, activation_chance=...)] *)
Record NonEmptySubset : Type := {
  elements : list Z;
  activation_chance : Float.t
}.

(** The attributes [__init__] sets. [end] is a keyword here, hence
    [end_]. *)
Record t : Type := Build {
  descriptor : Z * Z;        (* descriptors.integers_in_range(start, end) *)
  start : Z;
  end_ : Z;
  parameter : NonEmptySubset;
  size_lower_bound : Z;
  size_upper_bound : Z
}.

(** [__init__(self, start, end)]. [tuple(range(start, end + 1))] is
    built in full; the machine's memory is not modelled. *)
Definition __init__ (start end_ : Z) : Py.result t :=
  if end_ <? start then Py.Raise (Py.InvalidRange start end_)
  else
    n ← Float.of_int (end_ - start + 1);
    Py.Ok {| descriptor := (start, end_);
             start := start;
             end_ := end_;
             parameter :=
               {| elements := Py.hrange start (end_ + 1);
                  activation_chance := Float.min Float.half (Float.div Float.three n) |};
             size_lower_bound := end_ - start + 1;
             size_upper_bound := end_ - start + 1 |}.

Definition from_basic (data : PyObj.t) : Py.result PyObj.t :=
  _ ← Strategy.check_data_type (PyObj.is_integer data); Py.Ok data.

Definition to_basic (template : Z) : PyObj.t := PyObj.PyInt template.

(** [produce_template(self, random, parameter)]; [parameter] is the
    value drawn from [self.parameter], a sequence of integers. The
    result comes with the state the random source is left in. *)
Definition produce_template (R : PyRandom.t) (self : t)
    (random : PyRandom.state R) (parameter : list Z)
    : Py.result (Z * PyRandom.state R) :=
  if start self =? end_ self then Py.Ok (start self, random)
  else PyRandom.choice R random parameter.

Definition simplify (self : t) (x : Z) : list Z :=
  if x =? start self then []
  else
    Py.hrange3 (x - 1) (start self - 1) (-1) ++
    (let mid := (start self + end_ self) / 2 in
     if mid <? x
     then (start self + (end_ self - x)) :: Py.hrange (x + 1) (end_ self + 1)
     else []).

End BoundedIntStrategy.

(* ================================================================== *)
(** * Generator bodies that can raise *)
(* ================================================================== *)

Module Gen.

(** A run of (a piece of) a generator body: the values yielded, in
    order, and how the piece ended. *)
Definition t (Y A : Type) : Type := list Y * Py.result A.

Definition ret {Y A : Type} (a : A) : t Y A := ([], Py.Ok a).

Definition yield {Y : Type} (y : Y) : t Y unit := ([y], Py.Ok tt).

(** A call that yields nothing. *)
Definition call {Y A : Type} (r : Py.result A) : t Y A := ([], r).

Definition bind {Y A B : Type} (g : t Y A) (k : A -> t Y B) : t Y B :=
  match g with
  | (ys, Py.Ok a) => let (zs, r) := k a in (ys ++ zs, r)
  | (ys, Py.Raise e) => (ys, Py.Raise e)
  end.

(** [for m in items: body(m)] *)
Fixpoint for_each {Y B : Type} (items : list B) (body : B -> t Y unit) : t Y unit :=
  match items with
  | [] => ret tt
  | m :: rest => bind (body m) (fun _ => for_each rest body)
  end.

(** [try: body  except <handled>: pass] *)
Definition try_pass {Y : Type} (handled : Py.exn -> bool) (body : t Y unit) : t Y unit :=
  match body with
  | (ys, Py.Raise e) => if handled e then (ys, Py.Ok tt) else (ys, Py.Raise e)
  | done => done
  end.

(** [if c: body] *)
Definition when {Y : Type} (c : bool) (body : t Y unit) : t Y unit :=
  if c then body else ret tt.

End Gen.

Notation "'do' x <- g ; k" := (Gen.bind g (fun x => k))
  (at level 10, x name, g at level 100, k at level 200).
Notation "g ;; k" := (Gen.bind g (fun _ => k))
  (at level 100, k at level 200, right associativity).

(* ================================================================== *)
(** * FloatStrategy *)
(* ================================================================== *)

Module FloatStrategy.

(** The one attribute [simplify] reads: [self.int_strategy], through
    its [simplify] method. *)
Record t : Type := Build {
  int_strategy_simplify : Integer.t -> list Integer.t
}.

(** [__init__]: [self.int_strategy = RandomGeometricIntStrategy()],
    whose [simplify] is the one of IntStrategy. *)
Definition __init__ (maxint : option Z) (R : PyRandom.t) : t :=
  {| int_strategy_simplify := IntStrategy.simplify maxint R |}.

Section WithCheckType.

(** The exception [check_type] raises on a mismatch. *)
Context (type_error : Py.exn).

Definition to_basic (value : PyObj.t) : Py.result PyObj.t :=
  _ ← Strategy.check_type type_error (PyObj.is_float value);
  match value with
  | PyObj.PyFloat x =>
      q ← Struct.unpack_Q (Struct.pack_d x); Py.Ok (PyObj.PyInt q)
  | _ => Py.Raise type_error
  end.

(** The exceptions of [except (struct.error, ValueError, OverflowError)]. *)
Definition from_basic_handled (e : Py.exn) : bool :=
  match e with
  | Py.StructError _ | Py.ValueError _ | Py.InvalidRange _ _
  | Py.OverflowError _ => true
  | _ => false
  end.

Definition exn_arg (e : Py.exn) : string :=
  match e with
  | Py.BadData a | Py.ValueError a | Py.OverflowError a | Py.IndexError a
  | Py.StructError a | Py.OtherError _ a => a
  | Py.InvalidRange _ _ => "Invalid range"
  end.

Definition from_basic (value : PyObj.t) : Py.result PyObj.t :=
  _ ← Strategy.check_type type_error (PyObj.is_integer value);
  match (data ← Struct.pack_Q (PyObj.int_value value); Struct.unpack_d data) with
  | Py.Ok x => Py.Ok (PyObj.PyFloat x)
  | Py.Raise e =>
      if from_basic_handled e then Py.Raise (Py.BadData (exn_arg e))
      else Py.Raise e
  end.

End WithCheckType.

(** The exceptions of [except (ValueError, OverflowError)]. *)
Definition simplify_handled (e : Py.exn) : bool :=
  match e with
  | Py.ValueError _ | Py.InvalidRange _ _ | Py.OverflowError _ => true
  | _ => false
  end.

(** The generator body of [simplify], statement by statement.
    [Float.to_int] gives the value of [n = int(x)]; the object is an [int]
    when the value fits in one. *)
Definition simplify_body (maxint : option Z) (self : t) (x : Float.t)
    : Gen.t Float.t unit :=
  if Float.eqb x Float.zero then Gen.ret tt
  else if Float.isnan x then
    (Gen.yield Float.zero ;; Gen.yield Float.inf ;; Gen.yield (Float.neg Float.inf))
  else if Float.isinf x then
    Gen.yield (Float.copysign Float.max x)
  else
    (Gen.when (Float.ltb x Float.zero) (Gen.yield (Float.neg x)) ;;
     Gen.yield Float.zero ;;
     Gen.try_pass simplify_handled
       (do n <- Gen.call (Float.to_int x);
        do y <- Gen.call (Float.of_int n);
        Gen.when (Float.neb x y) (Gen.yield y) ;;
        Gen.for_each (int_strategy_simplify self (Integer.of_Z maxint n))
          (fun m => do v <- Gen.call (Float.add_int x (Integer.value m - n));
                    Gen.yield v)) ;;
     Gen.when (Float.ltb Float.one (Float.abs x))
       (Gen.yield (Float.div x Float.two))).

(** What a caller iterating over [simplify(x)] receives. *)
Definition simplify (maxint : option Z) (self : t) (x : Float.t) : list Float.t :=
  fst (simplify_body maxint self x).

(** And how the iteration ends: normally, or with an exception. *)
Definition simplify_end (maxint : option Z) (self : t) (x : Float.t)
    : Py.result unit :=
  snd (simplify_body maxint self x).

End FloatStrategy.

(* ================================================================== *)
(** * hypothesis.extra.twisted: the Deferred driver *)
(* ================================================================== *)

Module Twisted.

(** What [g.send] or [g.throw] can raise: the early-return signal
    [Return(value)], [StopIteration] when the body is exhausted, or any
    other exception. *)
Inductive raised : Type :=
| Return (value : PyObj.t)
| StopIteration
| Error (e : Py.exn).

(** The current result of a fired Deferred: a value, or a [Failure]
    wrapping an exception. *)
Inductive outcome : Type :=
| Success (v : PyObj.t)
| Failure (e : Py.exn).

(** A generator, by what the next resumption does: it raises, or it
    yields an object and waits to be resumed, by [send(v)]
    ([Success v]) or by an exception thrown into it ([Failure e]).
    The objects a body yields, and the argument of [defer_driver]:
    a plain value, a generator, or a Deferred (by reference). *)
Inductive gen : Type :=
| Raises (r : raised)
| Yields (y : obj) (k : outcome -> gen)
with obj : Type :=
| Value (v : PyObj.t)
| Generator (g : gen)
| DeferredRef (d : nat).

(** A callback registered by [result.addBoth(_iter_defer, g, done_d)]:
    the suspended generator and the Deferred to complete. *)
Definition callback_entry : Type := (outcome -> gen) * nat.

(** A Deferred of Twisted: whether it has fired, its current result, the
    callbacks not yet run, whether it is running one now
    ([_runningCallbacks]), and, as a ghost counter, how many times
    [callback] or [errback] was invoked on it. *)
Record deferred : Type := {
  called : bool;
  result : outcome;
  callbacks : list callback_entry;
  running : bool;
  fire_calls : nat
}.

Definition new_deferred : deferred :=
  {| called := false; result := Success PyObj.PyNone; callbacks := [];
     running := false; fire_calls := 0 |}.

(** The heap of Deferreds; a reference is an index. *)
Abbreviation store := (list deferred).

(** A computation on the heap: [None] when the fuel of the
    interpreter below ran out, else a Python result and the new heap. *)
Definition M (A : Type) : Type := store -> option (Py.result A * store).

Definition ret {A : Type} (a : A) : M A := fun s => Some (Py.Ok a, s).

Definition raise {A : Type} (e : Py.exn) : M A := fun s => Some (Py.Raise e, s).

Definition bind {A B : Type} (m : M A) (k : A -> M B) : M B :=
  fun s =>
    match m s with
    | None => None
    | Some (Py.Ok a, s') => k a s'
    | Some (Py.Raise e, s') => Some (Py.Raise e, s')
    end.

Definition AlreadyCalledError : Py.exn := Py.OtherError "AlreadyCalledError" "".
Definition AssertionError : Py.exn := Py.OtherError "AssertionError" "".
Definition dangling : Py.exn := Py.OtherError "ReferenceError" "no such Deferred".

(** [Deferred()] *)
Definition alloc : M nat :=
  fun s => Some (Py.Ok (List.length s), s ++ [new_deferred]).

Definition get (d : nat) : M deferred :=
  fun s => match s !! d with
           | Some D => Some (Py.Ok D, s)
           | None => Some (Py.Raise dangling, s)
           end.

Definition put (d : nat) (D : deferred) : M unit :=
  fun s => Some (Py.Ok tt, <[d := D]> s).

(** The result a Deferred keeps after a callback returned or raised:
    [_iter_defer] returns None; an exception becomes a Failure. *)
Definition callback_result (r : Py.result unit) : outcome :=
  match r with
  | Py.Ok _ => Success PyObj.PyNone
  | Py.Raise e => Failure e
  end.

(** The interpreter. Each call consumes one unit of fuel.
    - [_runCallbacks d]: Twisted's loop over the pending callbacks;
    - [fire d o]: [d.callback(v)] or [d.errback(failure)];
    - [addBoth d cb]: register, and run now if [d] has fired;
    - [_iter_defer result g done_d] and [defer_driver g]: the source. *)
Fixpoint _runCallbacks (fuel : nat) (d : nat) : M unit :=
  match fuel with
  | O => fun _ => None
  | S n =>
      bind (get d) (fun D =>
      if running D then ret tt
      else
        match callbacks D with
        | [] => ret tt
        | (k, done_d) :: rest =>
            bind (put d {| called := called D; result := result D;
                           callbacks := rest; running := true;
                           fire_calls := fire_calls D |}) (fun _ =>
            fun s =>
              match _iter_defer n (result D) k done_d s with
              | None => None
              | Some (r, s') =>
                  bind (get d) (fun D' =>
                  bind (put d {| called := called D';
                                 result := callback_result r;
                                 callbacks := callbacks D'; running := false;
                                 fire_calls := fire_calls D' |}) (fun _ =>
                  _runCallbacks n d)) s'
              end)
        end)
  end

with fire (fuel : nat) (d : nat) (o : outcome) : M unit :=
  match fuel with
  | O => fun _ => None
  | S n =>
      bind (get d) (fun D =>
      bind (put d {| called := called D; result := result D;
                     callbacks := callbacks D; running := running D;
                     fire_calls := S (fire_calls D) |}) (fun _ =>
      if called D then raise AlreadyCalledError
      else
        bind (put d {| called := true; result := o;
                       callbacks := callbacks D; running := running D;
                       fire_calls := S (fire_calls D) |}) (fun _ =>
        _runCallbacks n d)))
  end

with addBoth (fuel : nat) (d : nat) (cb : callback_entry) : M unit :=
  match fuel with
  | O => fun _ => None
  | S n =>
      bind (get d) (fun D =>
      bind (put d {| called := called D; result := result D;
                     callbacks := callbacks D ++ [cb]; running := running D;
                     fire_calls := fire_calls D |}) (fun _ =>
      if called D then _runCallbacks n d else ret tt))
  end

(** [_iter_defer(result, g, done_d)]. [g.send(result)] or
    [result.throwExceptionIntoGenerator(g)] is [g result]. After
    [result = defer_driver(result)] the object is a Deferred, so the
    second test always holds and the loop body runs once. *)
with _iter_defer (fuel : nat) (result : outcome) (g : outcome -> gen)
    (done_d : nat) : M unit :=
  match fuel with
  | O => fun _ => None
  | S n =>
      match g result with
      | Raises (Return value) => fire n done_d (Success value)
      | Raises StopIteration => fire n done_d (Success PyObj.PyNone)
      | Raises (Error e) => fire n done_d (Failure e)
      | Yields y g' =>
          bind (match y with
                | DeferredRef d => ret d
                | _ => defer_driver n y
                end) (fun d =>
          addBoth n d (g', done_d))
      end
  end

(** [defer_driver(g)]. Handing a Deferred to [done_d.callback] trips
    the assertion Twisted makes there. *)
with defer_driver (fuel : nat) (g : obj) : M nat :=
  match fuel with
  | O => fun _ => None
  | S n =>
      bind alloc (fun done_d =>
      bind (match g with
            | Value v => fire n done_d (Success v)
            | DeferredRef _ => raise AssertionError
            | Generator body => _iter_defer n (Success PyObj.PyNone) (fun _ => body) done_d
            end) (fun _ =>
      ret done_d))
  end.

(** The state of the Deferred [defer_driver] returned, when it returned
    one. *)
Definition drive (fuel : nat) (g : obj) (s : store) : option (Py.result deferred * store) :=
  match defer_driver fuel g s with
  | None => None
  | Some (Py.Ok d, s') =>
      Some (match s' !! d with
            | Some D => Py.Ok D
            | None => Py.Raise dangling
            end, s')
  | Some (Py.Raise e, s') => Some (Py.Raise e, s')
  end.

End Twisted.

(* ================================================================== *)
(** * Definitions used to state the properties *)
(* ================================================================== *)

(** Unfold the sequencing of results. *)
Ltac py_step := cbn [mbind mret result_bind result_ret Py.bind].

(** The bounded-range [simplify] as the specification words it: the integers
    strictly between [start] and [x], decreasing; then, when [x] is above
    the middle, the reflection and the integers above [x] up to [end]. *)
Definition claimed_bounded_simplify (start end_ x : Z) : list Z :=
  rev (seqZ (start + 1) (x - start - 1)) ++
  (if (start + end_) / 2 <? x
   then (start + (end_ - x)) :: seqZ (x + 1) (end_ - x)
   else []).

(** One step of the search that always takes the first candidate. *)
Definition first_step {A : Type} (simplify : A -> list A) (t t' : A) : Prop :=
  head (simplify t) = Some t'.

(** A measure on values that the first candidate of the generic integer
    [simplify] does not increase: negative, then positive, then zero. *)
Definition int_rank (t : Z) : nat :=
  if t <? 0 then 2%nat else if 0 <? t then 1%nat else 0%nat.

(** A measure on integer objects that the first candidate decreases: an
    object that [int] would give another type comes before the object
    [int] returns for it. *)
Definition shrink_rank (maxint : option Z) (t : Integer.t) : nat :=
  (2 * int_rank (Integer.value t) +
   (if decide (Integer.type_of (Integer.int maxint t) <> Integer.type_of t)
    then 1 else 0))%nat.

(** The offsets [x + (m - n)], for the candidates [m] in order, up to the
    first one for which [m - n] does not convert to a float. *)
Fixpoint offsets (x : Float.t) (n : Z) (ms : list Z) : list Float.t :=
  match ms with
  | [] => []
  | m :: rest =>
      match Float.add_int x (m - n) with
      | Py.Ok v => v :: offsets x n rest
      | Py.Raise _ => []
      end
  end.

(** [x + k] with the int operand rounded as IEEE-754 rounds: past the
    largest float the operand is an infinity. This is the [x + (m - n)]
    of the specification, read without the conversion error. *)
Definition add_int_unchecked (x : Float.t) (k : Z) : Float.t :=
  Float.add x (Float.of_Z k).

(** The generic float [simplify] as the specification words it. *)
Definition claimed_float_simplify (int_simplify : Z -> list Z) (x : Float.t)
    : list Float.t :=
  if Float.eqb x Float.zero then []
  else if Float.isnan x then [Float.zero; Float.inf; Float.neg_inf]
  else if Float.isinf x then [Float.copysign Float.max x]
  else
    (if Float.ltb x Float.zero then [Float.neg x] else []) ++
    [Float.zero] ++
    match Float.to_int x with
    | Py.Ok n =>
        match Float.of_int n with
        | Py.Ok y => if Float.neb x y then [y] else []
        | Py.Raise _ => []
        end ++
        map (fun m => add_int_unchecked x (m - n)) (int_simplify n)
    | Py.Raise _ => []
    end ++
    (if Float.ltb Float.one (Float.abs x) then [Float.div x Float.two] else []).

Section DriverDefinitions.

Import Twisted.
Local Open Scope nat_scope.

(** The outcome [done_d] is completed with, by the way the body stopped. *)
Definition outcome_of (r : raised) : outcome :=
  match r with
  | Return value => Success value
  | StopIteration => Success PyObj.PyNone
  | Error e => Failure e
  end.

(** How a body ends, and on which Deferreds it waits on the way, when
    the Deferreds it yields fire with [answers], in order. A plain value
    is sent back in at once; a generator is driven first and must end
    without waiting; a Deferred takes the next answer. *)
Fixpoint run (g : gen) (answers : list outcome) : option (raised * list (nat * outcome)) :=
  match g with
  | Raises r => Some (r, [])
  | Yields (Value v) k => run (k (Success v)) answers
  | Yields (Generator g2) k =>
      match run g2 [] with
      | Some (r2, _) => run (k (outcome_of r2)) answers
      | None => None
      end
  | Yields (DeferredRef d) k =>
      match answers with
      | [] => None
      | a :: rest =>
          match run (k a) rest with
          | Some (r, evs) => Some (r, (d, a) :: evs)
          | None => None
          end
      end
  end.

(** A Deferred that has fired once with [o] and has nothing left to run. *)
Definition fired (o : outcome) : deferred :=
  {| called := true; result := o; callbacks := []; running := false; fire_calls := 1 |}.

(** A pending Deferred on which one continuation is registered. *)
Definition waiting (k : outcome -> gen) (done_d : nat) : deferred :=
  {| called := false; result := Success PyObj.PyNone; callbacks := [(k, done_d)];
     running := false; fire_calls := 0 |}.

(** [settles N evs done_d o s]: in the heap [s], [done_d] has been
    completed with [o] if no event is left; else it is still pending, and
    firing the next awaited Deferred, in any heap that agrees with [s] on
    the Deferreds involved, leads to a heap that settles with the other
    events. *)
Fixpoint settles (N : nat) (evs : list (nat * outcome)) (done_d : nat)
    (o : outcome) (s : list deferred) : Prop :=
  match evs with
  | [] => s !! done_d = Some (fired o)
  | (d, a) :: rest =>
      s !! done_d = Some new_deferred /\
      forall (fuel : nat) (s1 : list deferred),
        N <= fuel ->
        (forall x, x ∈ done_d :: d :: map fst rest -> s1 !! x = s !! x) ->
        exists s', fire fuel d a s1 = Some (Py.Ok tt, s') /\
                   settles N rest done_d o s'
  end.

(** The property proved of bodies: started or resumed on a pending
    [done_d], in a heap where the Deferreds it will wait on are pending
    and distinct, the step returns normally in a heap that settles, and
    leaves the other Deferreds as they were. *)
Definition completes (N : nat) (g : gen) (evs : list (nat * outcome))
    (o : outcome) : Prop :=
  forall (fuel : nat) (res : outcome) (k : outcome -> gen) (done_d : nat)
         (s : list deferred),
    N <= fuel -> k res = g ->
    s !! done_d = Some new_deferred ->
    (forall d, d ∈ map fst evs -> s !! d = Some new_deferred) ->
    done_d ∉ map fst evs ->
    NoDup (map fst evs) ->
    exists s',
      _iter_defer fuel res k done_d s = Some (Py.Ok tt, s') /\
      settles N evs done_d o s' /\
      length s <= length s' /\
      (forall x, x <> done_d -> x ∉ map fst evs -> x < length s ->
                 s' !! x = s !! x).

Scheme gen_obj_ind := Induction for gen Sort Prop
  with obj_gen_ind := Induction for obj Sort Prop.

(** Fire the awaited Deferreds, one after the other. *)
Fixpoint fire_all (fuel : nat) (evs : list (nat * outcome)) (s : list deferred)
    : option (list deferred) :=
  match evs with
  | [] => Some s
  | (d, a) :: rest =>
      match fire fuel d a s with
      | Some (Py.Ok _, s') => fire_all fuel rest s'
      | _ => None
      end
  end.

End DriverDefinitions.

(* ================================================================== *)
(** * Properties: ranges *)
(* ================================================================== *)

Section Ranges.

Lemma hrange_down_eq (hi lo : Z) :
  Py.hrange3 hi lo (-1) = map (fun i => hi - Z.of_nat i) (seq 0 (Z.to_nat (hi - lo))).
Proof.
  unfold Py.hrange3. simpl (0 <? -1).
  replace ((hi - lo - -1 - 1) / - -1) with (hi - lo)
    by (change (- -1) with 1; rewrite Z.div_1_r; lia).
  apply map_ext. intros i. lia.
Qed.

Lemma hrange_up_eq (lo hi : Z) :
  Py.hrange lo hi = map (fun i => lo + Z.of_nat i) (seq 0 (Z.to_nat (hi - lo))).
Proof.
  unfold Py.hrange, Py.hrange3. simpl (0 <? 1).
  replace ((hi - lo + 1 - 1) / 1) with (hi - lo) by (rewrite Z.div_1_r; lia).
  apply map_ext. intros i. lia.
Qed.

Lemma In_hrange_down (hi lo y : Z) :
  In y (Py.hrange3 hi lo (-1)) <-> lo < y <= hi.
Proof.
  rewrite hrange_down_eq, in_map_iff. split.
  - intros (i & <- & Hi). apply in_seq in Hi. lia.
  - intros Hy. exists (Z.to_nat (hi - y)). split; [lia|]. apply in_seq. lia.
Qed.

Lemma In_hrange_up (lo hi y : Z) :
  In y (Py.hrange lo hi) <-> lo <= y < hi.
Proof.
  rewrite hrange_up_eq, in_map_iff. split.
  - intros (i & <- & Hi). apply in_seq in Hi. lia.
  - intros Hy. exists (Z.to_nat (y - lo)). split; [lia|]. apply in_seq. lia.
Qed.

Lemma hrange_down_length (hi lo : Z) :
  List.length (Py.hrange3 hi lo (-1)) = Z.to_nat (hi - lo).
Proof. rewrite hrange_down_eq, length_map, length_seq. reflexivity. Qed.

Lemma hrange_up_length (lo hi : Z) :
  List.length (Py.hrange lo hi) = Z.to_nat (hi - lo).
Proof. rewrite hrange_up_eq, length_map, length_seq. reflexivity. Qed.

Lemma hrange_down_head (hi lo : Z) :
  lo < hi -> head (Py.hrange3 hi lo (-1)) = Some hi.
Proof.
  intros H. rewrite hrange_down_eq.
  destruct (Z.to_nat (hi - lo)) as [|k] eqn:E; [lia|].
  simpl. f_equal. lia.
Qed.

Lemma hrange_down_nil (hi lo : Z) :
  hi <= lo -> Py.hrange3 hi lo (-1) = [].
Proof.
  intros H. rewrite hrange_down_eq.
  replace (Z.to_nat (hi - lo)) with 0%nat by lia. reflexivity.
Qed.

End Ranges.

(* ================================================================== *)
(** * Properties: the random interface *)
(* ================================================================== *)

Section RandomFacts.

Lemma lcg_in_range : PyRandom.randbelow_in_range PyRandom.lcg.
Proof.
  intros r n Hn. simpl. apply Z.mod_pos_bound. exact Hn.
Qed.

Lemma randint_in_range (R : PyRandom.t) (HR : PyRandom.randbelow_in_range R)
    (r : PyRandom.state R) (a b : Z) :
  a <= b -> a <= fst (PyRandom.randint R r a b) <= b.
Proof.
  intros Hab. unfold PyRandom.randint.
  pose proof (HR r (b - a + 1) ltac:(lia)) as Hk.
  destruct (PyRandom.randbelow R r (b - a + 1)) as [k r']. simpl in *. lia.
Qed.

Lemma choice_In (R : PyRandom.t) (HR : PyRandom.randbelow_in_range R)
    (r r' : PyRandom.state R) (l : list Z) (t : Z) :
  PyRandom.choice R r l = Py.Ok (t, r') -> In t l.
Proof.
  unfold PyRandom.choice. destruct l as [|d l]; [discriminate|].
  pose proof (HR r (Z.of_nat (List.length (d :: l))) ltac:(simpl; lia)) as Hk.
  destruct (PyRandom.randbelow R r (Z.of_nat (List.length (d :: l)))) as [k r1].
  simpl fst in Hk. intros [= <- <-].
  apply (@nth_In Z (Z.to_nat k) (d :: l) d). lia.
Qed.

End RandomFacts.

(* ================================================================== *)
(** * Properties: IntStrategy.simplify *)
(* ================================================================== *)

Section IntSimplify.

Context (maxint : option Z) (R : PyRandom.t).

Lemma simplify_neg (x : Integer.t) :
  Integer.value x < 0 ->
  IntStrategy.simplify maxint R x =
    IntStrategy.simplify_type maxint x ++
    Integer.neg maxint x ::
    map (Integer.neg maxint) (IntStrategy.simplify maxint R (Integer.neg maxint x)).
Proof.
  intros H. rewrite IntStrategy.simplify_equation_1 at 1.
  unfold IntStrategy.simplify_unfold_clause_1.
  destruct (Logic.inspect (Integer.value x <? 0)) as [[] e]; [reflexivity|].
  pose proof (proj1 (Z.ltb_ge _ _) e). lia.
Qed.

Lemma simplify_pos (x : Integer.t) :
  0 < Integer.value x ->
  IntStrategy.simplify maxint R x =
    IntStrategy.simplify_type maxint x ++ IntStrategy.simplify_positive maxint R x.
Proof.
  intros H. rewrite IntStrategy.simplify_equation_1.
  unfold IntStrategy.simplify_unfold_clause_1.
  destruct (Logic.inspect (Integer.value x <? 0)) as [[] e].
  - pose proof (proj1 (Z.ltb_lt _ _) e). lia.
  - unfold IntStrategy.simplify_unfold_clause_1_clause_2.
    destruct (Logic.inspect (0 <? Integer.value x)) as [[] e']; [reflexivity|].
    pose proof (proj1 (Z.ltb_ge _ _) e'). lia.
Qed.

Lemma simplify_zero (x : Integer.t) :
  Integer.value x = 0 ->
  IntStrategy.simplify maxint R x = IntStrategy.simplify_type maxint x.
Proof.
  intros H. rewrite IntStrategy.simplify_equation_1.
  unfold IntStrategy.simplify_unfold_clause_1.
  destruct (Logic.inspect (Integer.value x <? 0)) as [[] e].
  - pose proof (proj1 (Z.ltb_lt _ _) e). lia.
  - unfold IntStrategy.simplify_unfold_clause_1_clause_2.
    destruct (Logic.inspect (0 <? Integer.value x)) as [[] e']; [|reflexivity].
    pose proof (proj1 (Z.ltb_lt _ _) e'). lia.
Qed.

(** The operations on integer objects, by value. *)
Lemma value_of_Z (n : Z) : Integer.value (Integer.of_Z maxint n) = n.
Proof. unfold Integer.of_Z. destruct (Integer.fits maxint n); reflexivity. Qed.

Lemma value_int (x : Integer.t) :
  Integer.value (Integer.int maxint x) = Integer.value x.
Proof. destruct x; cbn; [reflexivity | reflexivity | apply value_of_Z]. Qed.

Lemma value_neg (x : Integer.t) :
  Integer.value (Integer.neg maxint x) = - Integer.value x.
Proof. destruct x; cbn; [reflexivity | apply value_of_Z | reflexivity]. Qed.

Lemma value_floordiv (x : Integer.t) (d : Z) :
  Integer.value (Integer.floordiv x d) = Integer.value x / d.
Proof. destruct x; reflexivity. Qed.

(** An object that [int] or an operation on [int]s returned has the
    type [int] gives it. *)
Lemma int_of_Z (n : Z) :
  Integer.int maxint (Integer.of_Z maxint n) = Integer.of_Z maxint n.
Proof.
  unfold Integer.of_Z. destruct (Integer.fits maxint n) eqn:E; cbn; [reflexivity|].
  unfold Integer.of_Z. rewrite E. reflexivity.
Qed.

Lemma int_int (x : Integer.t) :
  Integer.int maxint (Integer.int maxint x) = Integer.int maxint x.
Proof. destruct x; cbn; [reflexivity | reflexivity | apply int_of_Z]. Qed.

Lemma fits_opp (n : Z) :
  n < 0 -> Integer.fits maxint (- n) = true -> Integer.fits maxint n = true.
Proof.
  unfold Integer.fits. destruct maxint as [m|]; [|reflexivity].
  intros Hn H. apply andb_true_iff in H. destruct H as [H1 H2].
  apply Z.leb_le in H1, H2. apply andb_true_iff. split; apply Z.leb_le; lia.
Qed.

Lemma simplify_type_In (x y : Integer.t) :
  In y (IntStrategy.simplify_type maxint x) ->
  y = Integer.int maxint x /\ Integer.type_of y <> Integer.type_of x.
Proof.
  unfold IntStrategy.simplify_type.
  destruct (decide (Integer.type_of (Integer.int maxint x) <> Integer.type_of x))
    as [Hne|]; [|intros []].
  intros [<-|[]]. split; [reflexivity | exact Hne].
Qed.

Lemma simplify_type_length (x : Integer.t) :
  (List.length (IntStrategy.simplify_type maxint x) <= 1)%nat.
Proof.
  unfold IntStrategy.simplify_type.
  destruct (decide (Integer.type_of (Integer.int maxint x) <> Integer.type_of x));
    simpl; lia.
Qed.

(** Negating an [int], or a negative [long] that does not fit in an
    [int], gives an object for which the first branch is dead. *)
Lemma simplify_type_neg (x : Integer.t) :
  Integer.value x < 0 ->
  IntStrategy.simplify_type maxint x = [] ->
  IntStrategy.simplify_type maxint (Integer.neg maxint x) = [].
Proof.
  intros Hx. unfold IntStrategy.simplify_type.
  destruct (decide (Integer.type_of (Integer.int maxint x) <> Integer.type_of x))
    as [|Heq]; [discriminate|]. intros _.
  destruct (decide (Integer.type_of (Integer.int maxint (Integer.neg maxint x)) <>
                    Integer.type_of (Integer.neg maxint x))) as [Hne|]; [|reflexivity].
  exfalso. apply Hne. destruct x as [b|n|n]; cbn in *.
  - destruct b; cbn in Hx; lia.
  - rewrite int_of_Z. reflexivity.
  - unfold Integer.of_Z in *.
    destruct (Integer.fits maxint (- n)) eqn:E; [|reflexivity].
    rewrite (fits_opp n Hx E) in Heq. exfalso. apply Heq. discriminate.
Qed.

Lemma sample_loop_length (iters : nat) (r : PyRandom.state R) (seen : gset Z) (x : Z) :
  (List.length (IntStrategy.sample_loop maxint R iters r seen x) <= iters)%nat.
Proof.
  revert r seen. induction iters as [|k IH]; intros r seen; simpl; [lia|].
  destruct (PyRandom.randint R r 0 (x - 1)) as [i r'].
  rewrite length_app. specialize (IH r' ({[ i ]} ∪ seen)).
  destruct (decide (i ∈ seen)); simpl; lia.
Qed.

Lemma simplify_positive_length (x : Integer.t) :
  (List.length (IntStrategy.simplify_positive maxint R x) <= 102)%nat.
Proof.
  unfold IntStrategy.simplify_positive. cbv zeta.
  destruct (Integer.value x =? 1); [simpl; lia|].
  destruct (Integer.value x =? 2); [simpl; lia|].
  destruct (Integer.value x <=? IntStrategy.max_iters) eqn:Hx.
  - apply Z.leb_le in Hx. unfold IntStrategy.max_iters in Hx.
    cbn [List.length]. rewrite length_map.
    pose proof (List.filter_length_le
                  (fun i => negb (i =? Integer.value x / 2))
                  (Py.hrange3 (Integer.value x - 1) 0 (-1))) as Hf.
    rewrite hrange_down_length in Hf. lia.
  - cbn [List.length].
    pose proof (sample_loop_length (Z.to_nat IntStrategy.max_iters)
                  (PyRandom.Random R (Integer.value x))
                  ({[ 0; Integer.value x / 2 ]}) (Integer.value x)) as Hl.
    change (Z.to_nat IntStrategy.max_iters) with 100%nat in *. lia.
Qed.

Lemma simplify_length (x : Integer.t) :
  (List.length (IntStrategy.simplify maxint R x) <= 105)%nat.
Proof.
  pose proof (simplify_type_length x) as Ht.
  destruct (Z.lt_trichotomy (Integer.value x) 0) as [H|[H|H]].
  - rewrite simplify_neg by exact H. rewrite length_app. cbn [List.length].
    rewrite length_map.
    rewrite simplify_pos by (rewrite value_neg; lia). rewrite length_app.
    pose proof (simplify_type_length (Integer.neg maxint x)).
    pose proof (simplify_positive_length (Integer.neg maxint x)). lia.
  - rewrite simplify_zero by exact H. lia.
  - rewrite simplify_pos by lia. rewrite length_app.
    pose proof (simplify_positive_length x). lia.
Qed.

(** The first candidate: [int(x)] when its type is not the type of
    [x]; else [-x] for a negative [x] and 0 for a positive one. *)
Lemma simplify_head (x : Integer.t) :
  head (IntStrategy.simplify maxint R x) =
    if decide (Integer.type_of (Integer.int maxint x) <> Integer.type_of x)
    then Some (Integer.int maxint x)
    else if Integer.value x <? 0 then Some (Integer.neg maxint x)
    else if 0 <? Integer.value x then Some (Integer.Int 0)
    else None.
Proof.
  destruct (Z.lt_trichotomy (Integer.value x) 0) as [H|[H|H]].
  - rewrite simplify_neg by exact H. unfold IntStrategy.simplify_type.
    apply Z.ltb_lt in H. rewrite H.
    destruct (decide (Integer.type_of (Integer.int maxint x) <> Integer.type_of x));
      reflexivity.
  - rewrite simplify_zero by exact H. unfold IntStrategy.simplify_type.
    rewrite H.
    destruct (decide (Integer.type_of (Integer.int maxint x) <> Integer.type_of x));
      reflexivity.
  - rewrite simplify_pos by exact H. unfold IntStrategy.simplify_type.
    replace (Integer.value x <? 0) with false by (symmetry; apply Z.ltb_ge; lia).
    apply Z.ltb_lt in H. rewrite H.
    destruct (decide (Integer.type_of (Integer.int maxint x) <> Integer.type_of x));
      reflexivity.
Qed.

Context (HR : PyRandom.randbelow_in_range R).

Lemma sample_loop_bound (iters : nat) (r : PyRandom.state R) (seen : gset Z)
    (x : Z) (y : Integer.t) :
  0 < x -> In y (IntStrategy.sample_loop maxint R iters r seen x) ->
  0 <= Integer.value y < x.
Proof.
  intros Hx. revert r seen. induction iters as [|k IH]; intros r seen; simpl; [tauto|].
  pose proof (randint_in_range R HR r 0 (x - 1) ltac:(lia)) as Hi.
  destruct (PyRandom.randint R r 0 (x - 1)) as [i r']. simpl in Hi.
  rewrite in_app_iff. intros [Hy|Hy]; [|eapply IH; exact Hy].
  destruct (decide (i ∈ seen)); simpl in Hy; [tauto|].
  destruct Hy as [<-|[]]. rewrite value_of_Z. lia.
Qed.

Lemma simplify_positive_bound (x y : Integer.t) :
  0 < Integer.value x -> In y (IntStrategy.simplify_positive maxint R x) ->
  0 <= Integer.value y < Integer.value x.
Proof.
  intros Hx. unfold IntStrategy.simplify_positive. cbv zeta.
  intros [<-|Hy]; [cbn; lia|].
  destruct (Integer.value x =? 1); [destruct Hy|].
  destruct Hy as [<-|Hy].
  { rewrite value_floordiv.
    split; [apply Z.div_pos; lia | apply Z.div_lt_upper_bound; lia]. }
  destruct (Integer.value x =? 2); [destruct Hy|].
  destruct (Integer.value x <=? IntStrategy.max_iters).
  - apply in_map_iff in Hy. destruct Hy as (i & <- & Hi).
    apply filter_In in Hi. destruct Hi as [Hi _].
    apply In_hrange_down in Hi. cbn. lia.
  - eapply sample_loop_bound; eauto.
Qed.

(** A candidate with the value of the template is [int(x)], yielded
    by the first branch because its type is not the type of [x]. *)
Lemma simplify_value_eq (x y : Integer.t) :
  In y (IntStrategy.simplify maxint R x) ->
  Integer.value y = Integer.value x ->
  y = Integer.int maxint x /\ Integer.type_of y <> Integer.type_of x.
Proof.
  destruct (Z.lt_trichotomy (Integer.value x) 0) as [H|[H|H]].
  - rewrite simplify_neg by exact H. rewrite in_app_iff.
    intros [Hy|[<-|Hy]] Hv.
    + apply simplify_type_In. exact Hy.
    + rewrite value_neg in Hv. lia.
    + apply in_map_iff in Hy. destruct Hy as (z & <- & Hz).
      rewrite value_neg in Hv.
      rewrite simplify_pos in Hz by (rewrite value_neg; lia).
      apply in_app_iff in Hz. destruct Hz as [Hz|Hz].
      * apply simplify_type_In in Hz. destruct Hz as [-> Hne].
        destruct x as [b|n|n]; cbn in *.
        { destruct b; cbn in H; lia. }
        { rewrite int_of_Z in Hne. contradiction Hne. reflexivity. }
        { unfold Integer.of_Z in *.
          destruct (Integer.fits maxint (- n)) eqn:E;
            [|contradiction Hne; reflexivity].
          cbn. unfold Integer.of_Z. rewrite Z.opp_involutive.
          rewrite (fits_opp n H E). split; [reflexivity | discriminate]. }
      * apply simplify_positive_bound in Hz; [|rewrite value_neg; lia].
        rewrite value_neg in Hz. lia.
  - rewrite simplify_zero by exact H. intros Hy _.
    apply simplify_type_In. exact Hy.
  - rewrite simplify_pos by exact H. rewrite in_app_iff. intros [Hy|Hy] Hv.
    + apply simplify_type_In. exact Hy.
    + apply simplify_positive_bound in Hy; lia.
Qed.

Lemma simplify_not_self (x : Integer.t) : ~ In x (IntStrategy.simplify maxint R x).
Proof.
  intros Hx. destruct (simplify_value_eq x x Hx eq_refl) as [_ Hne].
  apply Hne. reflexivity.
Qed.

End IntSimplify.

(** C2. The generic integer [simplify] at its boundary: nothing for 0,
    exactly [0] for 1, exactly [0; 1] for 2, and for 100 the values
    0, 50, then 99 down to 51 and 49 down to 1, and nothing else,
    whatever the random source; the template and the candidates are
    [int]s, under Python 3 and under Python 2. *)
Theorem int_simplify_boundary (maxint : option Z) (R : PyRandom.t) :
  IntStrategy.simplify maxint R (Integer.Int 0) = [] /\
  IntStrategy.simplify maxint R (Integer.Int 1) = [Integer.Int 0] /\
  IntStrategy.simplify maxint R (Integer.Int 2) = [Integer.Int 0; Integer.Int 1] /\
  IntStrategy.simplify maxint R (Integer.Int 100) =
    map Integer.Int (0 :: 50 :: rev (seqZ 51 49) ++ rev (seqZ 1 49)).
Proof.
  repeat split; vm_compute; reflexivity.
Qed.

(* ================================================================== *)
(** * Properties: BoundedIntStrategy *)
(* ================================================================== *)

Section Bounded.

Import BoundedIntStrategy.

Lemma init_inv (lo hi : Z) (s : t) :
  __init__ lo hi = Py.Ok s ->
  lo <= hi /\ start s = lo /\ end_ s = hi /\
  elements (parameter s) = Py.hrange lo (hi + 1).
Proof.
  unfold __init__. destruct (hi <? lo) eqn:E; [discriminate|].
  apply Z.ltb_ge in E.
  destruct (Float.of_int (hi - lo + 1)) as [n|e]; simpl; [|discriminate].
  intros [= <-]. simpl. auto.
Qed.

Lemma init_point (p : Z) :
  exists s, __init__ p p = Py.Ok s /\ start s = p /\ end_ s = p.
Proof.
  unfold __init__. rewrite Z.ltb_irrefl.
  replace (p - p + 1) with 1 by lia.
  eexists. split; [reflexivity|]. split; reflexivity.
Qed.

(** The ascending run above [x] and the descending run below it, as
    library lists. *)
Lemma hrange_up_seqZ (lo hi : Z) :
  Py.hrange lo hi = seqZ lo (hi - lo).
Proof.
  rewrite hrange_up_eq. unfold seqZ. apply map_ext. intros i. lia.
Qed.

Lemma map_down_rev (n : nat) (hi : Z) :
  map (fun i => hi - Z.of_nat i) (seq 0 n) =
  rev (map (fun i => hi - Z.of_nat n + 1 + Z.of_nat i) (seq 0 n)).
Proof.
  revert hi. induction n as [|n IH]; intros hi; [reflexivity|].
  transitivity (hi :: map (fun i => (hi - 1) - Z.of_nat i) (seq 0 n)).
  { cbn [seq]. rewrite <- seq_shift. cbn [map]. rewrite map_map.
    f_equal; [lia|]. apply map_ext; intros; lia. }
  rewrite IH, seq_S, map_app, rev_app_distr. cbn [map rev app Nat.add].
  f_equal; [lia|]. f_equal. apply map_ext; intros; lia.
Qed.

Lemma hrange_down_seqZ (hi lo : Z) :
  Py.hrange3 hi lo (-1) = rev (seqZ (lo + 1) (hi - lo)).
Proof.
  rewrite hrange_down_eq, map_down_rev. unfold seqZ. f_equal.
  destruct (Z_le_gt_dec (hi - lo) 0) as [H|H].
  - replace (Z.to_nat (hi - lo)) with 0%nat by lia. reflexivity.
  - apply map_ext. intros i. lia.
Qed.

Lemma bounded_simplify_head (s : t) (x : Z) :
  start s <= end_ s ->
  head (simplify s x) = if start s <? x then Some (x - 1) else None.
Proof.
  intros Hse. unfold simplify.
  destruct (x =? start s) eqn:E.
  - apply Z.eqb_eq in E. subst. rewrite Z.ltb_irrefl. reflexivity.
  - apply Z.eqb_neq in E. destruct (start s <? x) eqn:L.
    + apply Z.ltb_lt in L.
      pose proof (hrange_down_head (x - 1) (start s - 1) ltac:(lia)) as Hh.
      destruct (Py.hrange3 (x - 1) (start s - 1) (-1)); [discriminate|exact Hh].
    + apply Z.ltb_ge in L. rewrite hrange_down_nil by lia.
      assert (Hm : start s <= (start s + end_ s) / 2)
        by (apply Z.div_le_lower_bound; lia).
      replace ((start s + end_ s) / 2 <? x) with false
        by (symmetry; apply Z.ltb_ge; lia).
      reflexivity.
Qed.

Lemma bounded_simplify_not_self (s : t) (x : Z) : ~ In x (simplify s x).
Proof.
  unfold simplify. destruct (x =? start s); [intros []|].
  rewrite in_app_iff, In_hrange_down. intros [H|H]; [lia|].
  destruct ((start s + end_ s) / 2 <? x) eqn:L; [|destruct H].
  apply Z.ltb_lt in L. destruct H as [H|H].
  - pose proof (Z.mul_div_le (start s + end_ s) 2 ltac:(lia)).
    pose proof (Z.mod_pos_bound (start s + end_ s) 2 ltac:(lia)).
    pose proof (Z.div_mod (start s + end_ s) 2 ltac:(lia)). lia.
  - apply In_hrange_up in H. lia.
Qed.

Lemma bounded_simplify_length (s : t) (x : Z) :
  (List.length (simplify s x) <=
     Z.to_nat (x - start s) + 1 + Z.to_nat (end_ s - x))%nat.
Proof.
  unfold simplify. destruct (x =? start s); [simpl; lia|].
  rewrite length_app, hrange_down_length.
  destruct ((start s + end_ s) / 2 <? x); cbn [List.length].
  - rewrite hrange_up_length. lia.
  - lia.
Qed.

End Bounded.

(** C4. A bounded-range strategy over a single point is constructed
    without error and its [produce_template] returns that point for every
    random source, state and parameter; with [start > end] the
    construction raises the invalid-range error. *)
Theorem bounded_construction_edge :
  (forall (p : Z),
     exists s, BoundedIntStrategy.__init__ p p = Py.Ok s /\
       forall (R : PyRandom.t) (random : PyRandom.state R) (parameter : list Z),
         BoundedIntStrategy.produce_template R s random parameter = Py.Ok (p, random)) /\
  (forall (start end_ : Z), end_ < start ->
     BoundedIntStrategy.__init__ start end_ = Py.Raise (Py.InvalidRange start end_)).
Proof.
  split.
  - intros p. destruct (init_point p) as (s & Hs & Hstart & Hend).
    exists s. split; [exact Hs|]. intros R random parameter.
    unfold BoundedIntStrategy.produce_template.
    rewrite Hstart, Hend, Z.eqb_refl. reflexivity.
  - intros start end_ H. unfold BoundedIntStrategy.__init__.
    apply Z.ltb_lt in H. rewrite H. reflexivity.
Qed.

Lemma bounded_construction_edge_witness :
  (exists s, BoundedIntStrategy.__init__ 5 5 = Py.Ok s /\
     BoundedIntStrategy.produce_template PyRandom.lcg s 42 [] = Py.Ok (5, 42)) /\
  BoundedIntStrategy.__init__ 6 5 = Py.Raise (Py.InvalidRange 6 5).
Proof.
  split.
  - destruct (proj1 bounded_construction_edge 5) as (s & Hs & Hp).
    exists s. split; [exact Hs | exact (Hp PyRandom.lcg 42 [])].
  - apply (proj2 bounded_construction_edge 6 5). lia.
Defined.

(** C5. Range containment: for a bounded-range strategy over [lo, hi],
    every template [produce_template] returns from a parameter drawn among
    the strategy's elements lies in [lo, hi], and so does every value
    [simplify] yields for a template in [lo, hi]. *)
Theorem bounded_range_containment (lo hi : Z) (s : BoundedIntStrategy.t)
    (Hle : lo <= hi) (Hs : BoundedIntStrategy.__init__ lo hi = Py.Ok s) :
  (forall (R : PyRandom.t) (random random' : PyRandom.state R)
          (parameter : list Z) (t : Z),
     PyRandom.randbelow_in_range R ->
     (forall e, In e parameter ->
                In e (BoundedIntStrategy.elements (BoundedIntStrategy.parameter s))) ->
     BoundedIntStrategy.produce_template R s random parameter = Py.Ok (t, random') ->
     lo <= t <= hi) /\
  (forall (t y : Z),
     lo <= t <= hi -> In y (BoundedIntStrategy.simplify s t) -> lo <= y <= hi).
Proof.
  destruct (init_inv lo hi s Hs) as (_ & Hstart & Hend & Hel). split.
  - intros R random random' parameter t HR Hsub.
    unfold BoundedIntStrategy.produce_template. rewrite Hstart, Hend.
    destruct (lo =? hi) eqn:E.
    + intros [= <- _]. lia.
    + intros Hc. apply choice_In in Hc; [|exact HR].
      apply Hsub in Hc. rewrite Hel in Hc. apply In_hrange_up in Hc. lia.
  - intros t y Ht. unfold BoundedIntStrategy.simplify. rewrite Hstart, Hend.
    destruct (t =? lo); [intros []|].
    rewrite in_app_iff, In_hrange_down. intros [H|H]; [lia|].
    destruct ((lo + hi) / 2 <? t); [|destruct H].
    destruct H as [<-|H]; [lia|]. apply In_hrange_up in H. lia.
Qed.

Lemma bounded_range_containment_witness :
  exists s, BoundedIntStrategy.__init__ 0 3 = Py.Ok s /\
    (0 <= 3 <= 3) /\ (0 <= 1 <= 3).
Proof.
  destruct (BoundedIntStrategy.__init__ 0 3) as [s|e] eqn:Hs;
    [|vm_compute in Hs; discriminate].
  exists s. split; [reflexivity|].
  pose proof (bounded_range_containment 0 3 s ltac:(lia) Hs) as [Hp Hq].
  assert (Hs' : s = match BoundedIntStrategy.__init__ 0 3 with
                    | Py.Ok s0 => s0 | Py.Raise _ => s end) by (rewrite Hs; reflexivity).
  split.
  - apply (Hp PyRandom.lcg 7 (PyRandom.lcg_next 7) [1; 3] 3 lcg_in_range).
    + intros e He. rewrite Hs'. vm_compute. vm_compute in He. tauto.
    + rewrite Hs'. vm_compute. reflexivity.
  - apply (Hq 2 1); [lia|]. rewrite Hs'. vm_compute. tauto.
Defined.

(** C6, as stated, fails: over [0, 10] the template 3 is simplified to
    2, 1 and 0; the lower bound itself is yielded, which "strictly
    between start and x" leaves out. *)
Lemma bounded_simplify_order_counterexample :
  exists s, BoundedIntStrategy.__init__ 0 10 = Py.Ok s /\
    BoundedIntStrategy.simplify s 3 = [2; 1; 0] /\
    claimed_bounded_simplify 0 10 3 = [2; 1] /\
    BoundedIntStrategy.simplify s 3 <> claimed_bounded_simplify 0 10 3.
Proof.
  eexists. split; [vm_compute; reflexivity|].
  repeat split; try (vm_compute; reflexivity).
  vm_compute. discriminate.
Qed.

(** C6, amended. For a template [x] in [start, end], [simplify] yields
    the integers from [x - 1] down to [start], the bound included, then,
    exactly when [x] is above [(start + end) // 2], the reflection
    [start + (end - x)] and the integers from [x + 1] up to [end], and
    nothing else; [simplify(start)] is empty. *)
Theorem bounded_simplify_order (start end_ x : Z) (s : BoundedIntStrategy.t)
    (Hs : BoundedIntStrategy.__init__ start end_ = Py.Ok s)
    (Hx : start <= x <= end_) :
  BoundedIntStrategy.simplify s x =
    rev (seqZ start (x - start)) ++
    (if (start + end_) / 2 <? x
     then (start + (end_ - x)) :: seqZ (x + 1) (end_ - x)
     else []) /\
  BoundedIntStrategy.simplify s start = [].
Proof.
  destruct (init_inv start end_ s Hs) as (Hle & Hstart & Hend & _).
  unfold BoundedIntStrategy.simplify. rewrite Hstart, Hend, Z.eqb_refl.
  split; [|reflexivity].
  destruct (x =? start) eqn:E.
  - apply Z.eqb_eq in E. subst x.
    rewrite Z.sub_diag, seqZ_nil by lia. simpl.
    assert (Hm : start <= (start + end_) / 2)
      by (apply Z.div_le_lower_bound; lia).
    replace ((start + end_) / 2 <? start) with false
      by (symmetry; apply Z.ltb_ge; lia).
    reflexivity.
  - rewrite hrange_down_seqZ, hrange_up_seqZ.
    replace (start - 1 + 1) with start by lia.
    replace (x - 1 - (start - 1)) with (x - start) by lia.
    replace (end_ + 1 - (x + 1)) with (end_ - x) by lia.
    reflexivity.
Qed.

Lemma bounded_simplify_order_witness :
  exists s, BoundedIntStrategy.__init__ 0 10 = Py.Ok s /\
    BoundedIntStrategy.simplify s 7 = [6; 5; 4; 3; 2; 1; 0; 3; 8; 9; 10] /\
    BoundedIntStrategy.simplify s 0 = [].
Proof.
  destruct (BoundedIntStrategy.__init__ 0 10) as [s|e] eqn:Hs;
    [|vm_compute in Hs; discriminate].
  exists s. split; [reflexivity|].
  exact (bounded_simplify_order 0 10 7 s Hs ltac:(lia)).
Defined.

(* ================================================================== *)
(** * Properties: shrinking cannot cycle *)
(* ================================================================== *)

Section NoCycle.

(** A step relation that strictly decreases a natural measure has no
    cycle. *)
Lemma tc_measure_lt {A : Type} (step : A -> A -> Prop) (measure : A -> nat) :
  (forall a b, step a b -> (measure b < measure a)%nat) ->
  forall a b, tc step a b -> (measure b < measure a)%nat.
Proof.
  intros Hstep a b Htc. induction Htc as [a b H|a b c H _ IH].
  - apply Hstep. exact H.
  - apply Hstep in H. lia.
Qed.

(** The first candidate is [int(a)], of another type than [a], or its
    value is further down: negative, positive, zero. *)
Lemma int_first_step (maxint : option Z) (R : PyRandom.t) (a b : Integer.t) :
  first_step (IntStrategy.simplify maxint R) a b ->
  (b = Integer.int maxint a /\ Integer.type_of b <> Integer.type_of a) \/
  (Integer.type_of (Integer.int maxint a) = Integer.type_of a /\
   (int_rank (Integer.value b) < int_rank (Integer.value a))%nat).
Proof.
  unfold first_step, int_rank. rewrite simplify_head.
  destruct (decide (Integer.type_of (Integer.int maxint a) <> Integer.type_of a))
    as [Hne|Heq].
  { intros [= <-]. left. split; [reflexivity | exact Hne]. }
  assert (Hty : Integer.type_of (Integer.int maxint a) = Integer.type_of a).
  { destruct (decide (Integer.type_of (Integer.int maxint a) = Integer.type_of a));
      [assumption | contradiction]. }
  destruct (Integer.value a <? 0) eqn:Ha.
  - intros [= <-]. right. split; [exact Hty|]. apply Z.ltb_lt in Ha.
    rewrite value_neg.
    replace (- Integer.value a <? 0) with false by (symmetry; apply Z.ltb_ge; lia).
    destruct (0 <? - Integer.value a); lia.
  - destruct (0 <? Integer.value a) eqn:Ha'; [|discriminate].
    intros [= <-]. right. split; [exact Hty|]. simpl. lia.
Qed.

Lemma int_first_step_rank (maxint : option Z) (R : PyRandom.t) (a b : Integer.t) :
  first_step (IntStrategy.simplify maxint R) a b ->
  (shrink_rank maxint b < shrink_rank maxint a)%nat.
Proof.
  intros H. apply int_first_step in H. unfold shrink_rank.
  destruct H as [[-> Hne] | [Heq Hlt]].
  - rewrite value_int, int_int.
    destruct (decide (Integer.type_of (Integer.int maxint a) <>
                      Integer.type_of (Integer.int maxint a))) as [C|_];
      [contradiction C; reflexivity|].
    destruct (decide (Integer.type_of (Integer.int maxint a) <> Integer.type_of a));
      [lia | contradiction].
  - destruct (decide (Integer.type_of (Integer.int maxint a) <> Integer.type_of a));
      [contradiction|].
    destruct (decide (Integer.type_of (Integer.int maxint b) <> Integer.type_of b));
      lia.
Qed.

(** Along a chain of first candidates the value goes down, except at a
    first step that only changes the type. *)
Lemma int_chain_value (maxint : option Z) (R : PyRandom.t) (a b : Integer.t) :
  tc (first_step (IntStrategy.simplify maxint R)) a b ->
  (b = Integer.int maxint a /\ Integer.type_of b <> Integer.type_of a) \/
  (int_rank (Integer.value b) < int_rank (Integer.value a))%nat.
Proof.
  intros Htc. induction Htc as [a b H|a b c H _ IH].
  - apply int_first_step in H. destruct H as [H|[_ H]]; [left|right]; exact H.
  - right. apply int_first_step in H.
    destruct H as [[-> Hne] | [_ Hlt]].
    + destruct IH as [[-> Hc] | IH].
      * rewrite int_int in Hc. contradiction Hc. reflexivity.
      * rewrite value_int in IH. exact IH.
    + destruct IH as [[-> _] | IH]; [rewrite value_int|]; lia.
Qed.

Lemma bounded_first_step_lt (s : BoundedIntStrategy.t) (a b : Z) :
  BoundedIntStrategy.start s <= BoundedIntStrategy.end_ s ->
  first_step (BoundedIntStrategy.simplify s) a b ->
  BoundedIntStrategy.start s <= b < a.
Proof.
  intros Hse. unfold first_step. rewrite bounded_simplify_head by exact Hse.
  destruct (BoundedIntStrategy.start s <? a) eqn:L; [|discriminate].
  apply Z.ltb_lt in L. intros [= <-]. lia.
Qed.

End NoCycle.

(** C8, as stated, fails for the generic integer [simplify] on a
    template that is not an [int]. [from_basic] accepts [True] and returns
    it; [int(True)] is [1], of another type, so it is the first candidate,
    and [1 == True]: the first step of the shrink sequence is back at
    the value it started from. *)
Lemma shrink_no_revisit_counterexample :
  let simplify := IntStrategy.simplify None PyRandom.lcg in
  let t := Integer.Bool true in
  IntStrategy.from_basic (PyObj.PyBool true) = Py.Ok (PyObj.PyBool true) /\
  Integer.of_obj (PyObj.PyBool true) = Some t /\
  simplify t = [Integer.Int 1; Integer.Int 0] /\
  first_step simplify t (Integer.Int 1) /\
  Integer.eqb (Integer.Int 1) t = true /\
  ~ (forall y, In y (simplify t) -> Integer.eqb y t = false).
Proof.
  cbv zeta. repeat split; try (vm_compute; reflexivity).
  intros H. specialize (H (Integer.Int 1)).
  assert (Hin : In (Integer.Int 1)
                  (IntStrategy.simplify None PyRandom.lcg (Integer.Bool true)))
    by (vm_compute; left; reflexivity).
  apply H in Hin. vm_compute in Hin. discriminate Hin.
Qed.

(** C8, amended. Shrinking terminates and does not revisit its start,
    but for a change of type. The generic integer [simplify] and the
    bounded-range [simplify] return a finite sequence (of bounded length)
    for every template. For the generic one, a template is never among
    its own candidates and no chain of first candidates leads back to it;
    the only candidate, and the only element of such a chain, that
    compares equal to the template is [int(t)], yielded first when its
    type is not the type of [t] (a [bool], or a [long] of Python 2 that
    fits in an [int]); for an [int] template there is none. For the
    bounded-range one no candidate and no chain returns to the
    template. *)
Theorem shrink_terminates_no_revisit (maxint : option Z) (R : PyRandom.t)
    (HR : PyRandom.randbelow_in_range R) :
  (forall t : Integer.t,
     (List.length (IntStrategy.simplify maxint R t) <= 105)%nat /\
     ~ In t (IntStrategy.simplify maxint R t) /\
     ~ tc (first_step (IntStrategy.simplify maxint R)) t t /\
     (forall y : Integer.t,
        In y (IntStrategy.simplify maxint R t) \/
        tc (first_step (IntStrategy.simplify maxint R)) t y ->
        Integer.eqb y t = true ->
        y = Integer.int maxint t /\ Integer.type_of y <> Integer.type_of t)) /\
  (forall (n : Z) (y : Integer.t),
     (List.length (IntStrategy.simplify maxint R (Integer.Int n)) <= 103)%nat /\
     (In y (IntStrategy.simplify maxint R (Integer.Int n)) \/
      tc (first_step (IntStrategy.simplify maxint R)) (Integer.Int n) y ->
      Integer.eqb y (Integer.Int n) = false)) /\
  (forall (lo hi : Z) (s : BoundedIntStrategy.t) (t : Z),
     BoundedIntStrategy.__init__ lo hi = Py.Ok s ->
     (List.length (BoundedIntStrategy.simplify s t) <=
        Z.to_nat (t - lo) + 1 + Z.to_nat (hi - t))%nat /\
     ~ In t (BoundedIntStrategy.simplify s t) /\
     ~ tc (first_step (BoundedIntStrategy.simplify s)) t t).
Proof.
  assert (Heq : forall t y : Integer.t,
            In y (IntStrategy.simplify maxint R t) \/
            tc (first_step (IntStrategy.simplify maxint R)) t y ->
            Integer.eqb y t = true ->
            y = Integer.int maxint t /\ Integer.type_of y <> Integer.type_of t).
  { intros t y Hy Hv. unfold Integer.eqb in Hv. apply Z.eqb_eq in Hv.
    destruct Hy as [Hy|Hy].
    - apply (simplify_value_eq maxint R HR t y Hy Hv).
    - apply int_chain_value in Hy. destruct Hy as [Hy|Hy]; [exact Hy|].
      rewrite Hv in Hy. lia. }
  split; [|split].
  - intros t. split; [apply simplify_length|].
    split; [apply simplify_not_self; exact HR|].
    split; [|apply Heq].
    intros Hc.
    apply (tc_measure_lt _ (shrink_rank maxint) (int_first_step_rank maxint R)) in Hc.
    lia.
  - intros n y. split.
    + destruct (Z.lt_trichotomy n 0) as [H|[->|H]].
      * rewrite simplify_neg by exact H. cbn [app IntStrategy.simplify_type].
        change (IntStrategy.simplify_type maxint (Integer.Int n)) with (@nil Integer.t).
        cbn [app List.length]. rewrite length_map.
        rewrite simplify_pos by (rewrite value_neg; cbn; lia).
        rewrite (simplify_type_neg maxint (Integer.Int n) H eq_refl).
        pose proof (simplify_positive_length maxint R (Integer.neg maxint (Integer.Int n))).
        cbn [app]. lia.
      * vm_compute. lia.
      * rewrite simplify_pos by exact H.
        change (IntStrategy.simplify_type maxint (Integer.Int n)) with (@nil Integer.t).
        pose proof (simplify_positive_length maxint R (Integer.Int n)).
        cbn [app]. lia.
    + intros Hy. destruct (Integer.eqb y (Integer.Int n)) eqn:E; [|reflexivity].
      destruct (Heq _ _ Hy E) as [-> Hne]. contradiction Hne. reflexivity.
  - intros lo hi s t Hs.
    destruct (init_inv lo hi s Hs) as (Hle & Hstart & Hend & _).
    split.
    { pose proof (bounded_simplify_length s t) as Hl.
      rewrite Hstart, Hend in Hl. exact Hl. }
    split; [apply bounded_simplify_not_self|].
    intros Hc.
    assert (Hlt : forall a b, tc (first_step (BoundedIntStrategy.simplify s)) a b ->
                              BoundedIntStrategy.start s <= b < a).
    { intros a b Htc. induction Htc as [a b H|a b c H _ IH].
      - apply bounded_first_step_lt; [lia | exact H].
      - apply bounded_first_step_lt in H; lia. }
    apply Hlt in Hc. lia.
Qed.

Lemma shrink_terminates_no_revisit_witness :
  let maxint := Some (2 ^ 63 - 1) in
  let simplify := IntStrategy.simplify maxint PyRandom.lcg in
  (let t := Integer.Long (-5) in
   hd_error (simplify t) = Some (Integer.Int (-5)) /\
   ~ In t (simplify t) /\
   ~ tc (first_step simplify) t t /\
   forall y, In y (simplify t) \/ tc (first_step simplify) t y ->
             Integer.eqb y t = true -> y = Integer.Int (-5)) /\
  (forall y, In y (simplify (Integer.Int (-1000))) \/
             tc (first_step simplify) (Integer.Int (-1000)) y ->
             Integer.eqb y (Integer.Int (-1000)) = false) /\
  (exists s, BoundedIntStrategy.__init__ 0 10 = Py.Ok s /\
     ~ In 7 (BoundedIntStrategy.simplify s 7) /\
     ~ tc (first_step (BoundedIntStrategy.simplify s)) 7 7).
Proof.
  cbv zeta.
  pose proof (shrink_terminates_no_revisit (Some (2 ^ 63 - 1)) PyRandom.lcg lcg_in_range)
    as (Hany & Hint & Hb).
  split; [|split].
  - destruct (Hany (Integer.Long (-5))) as (_ & Hself & Hcycle & Heq).
    split; [vm_compute; reflexivity|].
    split; [exact Hself|]. split; [exact Hcycle|].
    intros y Hy Hv. destruct (Heq y Hy Hv) as [-> _]. vm_compute. reflexivity.
  - intros y. apply (Hint (-1000) y).
  - destruct (BoundedIntStrategy.__init__ 0 10) as [s|e] eqn:Hs;
      [|vm_compute in Hs; discriminate].
    exists s. split; [reflexivity|].
    destruct (Hb 0 10 s 7 Hs) as (_ & Hself & Hcycle).
    split; [exact Hself | exact Hcycle].
Defined.

(* ================================================================== *)
(** * Properties: bytes and bit patterns *)
(* ================================================================== *)

Section BytesFacts.

Import Bytes.

Lemma byte_to_Z_range (b : byte) : 0 <= byte_to_Z b < 256.
Proof.
  unfold byte_to_Z. pose proof (Byte.to_N_bounded b). lia.
Qed.

Lemma byte_of_to_Z (b : byte) : byte_of_Z (byte_to_Z b) = b.
Proof.
  unfold byte_of_Z, byte_to_Z. rewrite N2Z.id, Byte.of_to_N. reflexivity.
Qed.

Lemma fold_be_acc (bs : list byte) (acc : Z) :
  fold_left (fun a b => a * 256 + byte_to_Z b) bs acc =
  acc * 256 ^ Z.of_nat (List.length bs) + be_to_Z bs.
Proof.
  unfold be_to_Z. revert acc. induction bs as [|b bs IH]; intros acc.
  - simpl. lia.
  - cbn [fold_left List.length]. rewrite IH, (IH (0 * 256 + byte_to_Z b)).
    rewrite Nat2Z.inj_succ, Z.pow_succ_r by lia. ring.
Qed.

Lemma be_to_Z_cons (b : byte) (bs : list byte) :
  be_to_Z (b :: bs) = byte_to_Z b * 256 ^ Z.of_nat (List.length bs) + be_to_Z bs.
Proof.
  unfold be_to_Z at 1. cbn [fold_left]. rewrite fold_be_acc. ring.
Qed.

Lemma be_to_Z_range (bs : list byte) :
  0 <= be_to_Z bs < 256 ^ Z.of_nat (List.length bs).
Proof.
  induction bs as [|b bs IH]; [unfold be_to_Z; simpl; lia|].
  rewrite be_to_Z_cons. cbn [List.length].
  rewrite Nat2Z.inj_succ, Z.pow_succ_r by lia.
  pose proof (byte_to_Z_range b). nia.
Qed.

Lemma be_of_Z_high (j : nat) (k : Z) (a r : Z) :
  Z.of_nat j <= k -> be_of_Z j (a * 256 ^ k + r) = be_of_Z j r.
Proof.
  induction j as [|j IH]; intros Hj; [reflexivity|].
  cbn [be_of_Z]. rewrite IH by lia. do 2 f_equal.
  replace (a * 256 ^ k) with (a * 256 ^ (k - Z.of_nat j - 1) * 256 * 256 ^ Z.of_nat j).
  2:{ rewrite <- !Z.mul_assoc. f_equal.
      rewrite <- Z.pow_succ_r, <- Z.pow_add_r by lia. f_equal. lia. }
  rewrite Z.add_comm, Z.div_add by (apply Z.pow_nonzero; lia).
  rewrite Z.mod_add by lia. reflexivity.
Qed.

(** The bytes of the integer a byte string denotes are that string. *)
Lemma be_roundtrip (bs : list byte) :
  be_of_Z (List.length bs) (be_to_Z bs) = bs.
Proof.
  induction bs as [|b bs IH]; [reflexivity|].
  rewrite be_to_Z_cons. cbn [List.length be_of_Z].
  rewrite be_of_Z_high by lia. rewrite IH. f_equal.
  pose proof (be_to_Z_range bs) as Hr. pose proof (byte_to_Z_range b) as Hb.
  rewrite Z.add_comm, Z.div_add by (apply Z.pow_nonzero; lia).
  rewrite Z.div_small by exact Hr. simpl (0 + _).
  rewrite Z.mod_small by exact Hb. apply byte_of_to_Z.
Qed.

Lemma bits_range (x : Float.t) : 0 <= Float.bits x < 2 ^ 64.
Proof.
  unfold Float.bits. pose proof (be_to_Z_range (Float.bytes x)) as H.
  exact H.
Qed.

Lemma of_bytes_bytes (x : Float.t) : Float.of_bytes (Float.bytes x) = Some x.
Proof. destruct x. reflexivity. Qed.

Lemma of_bits_bits (x : Float.t) : Float.of_bits (Float.bits x) = x.
Proof.
  unfold Float.of_bits, Float.bits.
  change 8%nat with (List.length (Float.bytes x)).
  rewrite be_roundtrip, of_bytes_bytes. reflexivity.
Qed.

End BytesFacts.

(* ================================================================== *)
(** * Properties: serialization *)
(* ================================================================== *)

Section Serialization.

Context (type_error : Py.exn).

Lemma float_to_basic_bits (x : Float.t) :
  FloatStrategy.to_basic type_error (PyObj.PyFloat x) =
  Py.Ok (PyObj.PyInt (Float.bits x)).
Proof. destruct x. reflexivity. Qed.

Lemma pack_Q_bits (x : Float.t) :
  Struct.pack_Q (Float.bits x) = Py.Ok (Float.bytes x).
Proof.
  unfold Struct.pack_Q. pose proof (bits_range x) as Hr.
  replace (0 <=? Float.bits x) with true by (symmetry; apply Z.leb_le; lia).
  replace (Float.bits x <? 2 ^ 64) with true by (symmetry; apply Z.ltb_lt; lia).
  cbn [andb]. f_equal. unfold Float.bits.
  exact (be_roundtrip (Float.bytes x)).
Qed.

Lemma unpack_d_bytes (x : Float.t) :
  Struct.unpack_d (Float.bytes x) = Py.Ok x.
Proof. unfold Struct.unpack_d. rewrite of_bytes_bytes. reflexivity. Qed.

Lemma float_from_basic_bits (x : Float.t) :
  FloatStrategy.from_basic type_error (PyObj.PyInt (Float.bits x)) =
  Py.Ok (PyObj.PyFloat x).
Proof.
  unfold FloatStrategy.from_basic, Strategy.check_type.
  cbn [PyObj.is_integer PyObj.int_value mbind result_bind Py.bind].
  rewrite pack_Q_bits. py_step. rewrite unpack_d_bytes. reflexivity.
Qed.

(** An integer outside [0, 2**64) is refused with BadData. *)
Lemma float_from_basic_out_of_range (n : Z) :
  ~ (0 <= n < 2 ^ 64) ->
  FloatStrategy.from_basic type_error (PyObj.PyInt n) =
  Py.Raise (Py.BadData "argument out of range").
Proof.
  intros Hn. unfold FloatStrategy.from_basic, Strategy.check_type.
  cbn [PyObj.is_integer PyObj.int_value mbind result_bind Py.bind].
  unfold Struct.pack_Q.
  destruct (0 <=? n) eqn:E1; destruct (n <? 2 ^ 64) eqn:E2; cbn [andb Py.bind];
    try reflexivity.
  apply Z.leb_le in E1. apply Z.ltb_lt in E2. lia.
Qed.

(** An integer inside [0, 2**64) is accepted, and is the pattern of
    the float returned. *)
Lemma float_from_basic_in_range (n : Z) :
  0 <= n < 2 ^ 64 ->
  exists x, FloatStrategy.from_basic type_error (PyObj.PyInt n) =
            Py.Ok (PyObj.PyFloat x).
Proof.
  intros Hn. unfold FloatStrategy.from_basic, Strategy.check_type.
  cbn [PyObj.is_integer PyObj.int_value mbind result_bind Py.bind].
  unfold Struct.pack_Q.
  replace (0 <=? n) with true by (symmetry; apply Z.leb_le; lia).
  replace (n <? 2 ^ 64) with true by (symmetry; apply Z.ltb_lt; lia).
  cbn [andb Py.bind Bytes.be_of_Z Struct.unpack_d Float.of_bytes].
  eexists. reflexivity.
Qed.

(** Anything that is not an integer leaves through [check_type], with
    the exception [check_type] raises: the call is outside the [try]. *)
Lemma float_from_basic_not_integer (v : PyObj.t) :
  PyObj.is_integer v = false ->
  FloatStrategy.from_basic type_error v = Py.Raise type_error.
Proof.
  intros Hv. unfold FloatStrategy.from_basic, Strategy.check_type.
  rewrite Hv. reflexivity.
Qed.

End Serialization.

(** C1. Serialization round trip. For the integer strategies [to_basic]
    and [from_basic] are the identity, so [from_basic(to_basic(t))] is
    [t]. For the float strategies [to_basic] gives the 64-bit pattern and
    [from_basic] of it gives back the same eight bytes, for every float;
    the patterns of 0.0, -0.0, NaN, +inf, -inf, the largest finite float
    and the least positive subnormal are listed. *)
Theorem serialization_roundtrip :
  (forall t : Z,
     IntStrategy.to_basic t = PyObj.PyInt t /\
     IntStrategy.from_basic (IntStrategy.to_basic t) = Py.Ok (PyObj.PyInt t) /\
     BoundedIntStrategy.from_basic (BoundedIntStrategy.to_basic t) = Py.Ok (PyObj.PyInt t)) /\
  (forall (type_error : Py.exn) (x : Float.t),
     (b ← FloatStrategy.to_basic type_error (PyObj.PyFloat x);
      FloatStrategy.from_basic type_error b) = Py.Ok (PyObj.PyFloat x)) /\
  (forall (type_error : Py.exn),
     map (fun x => FloatStrategy.to_basic type_error (PyObj.PyFloat x))
       [Float.zero; Float.neg_zero; Float.nan; Float.inf; Float.neg_inf;
        Float.max; Float.min_subnormal] =
     map (fun n => Py.Ok (PyObj.PyInt n))
       [0; 2 ^ 63; 0x7ff8000000000000; 0x7ff0000000000000; 0xfff0000000000000;
        0x7fefffffffffffff; 1]).
Proof.
  split; [|split].
  - intros t. repeat split.
  - intros type_error x. rewrite float_to_basic_bits.
    cbn [mbind result_bind Py.bind]. apply float_from_basic_bits.
  - intros type_error. vm_compute. reflexivity.
Qed.

(** When [check_type] raises an exception that is not BadData, so does
    [from_basic] on every input that is not an integer. *)
Lemma float_from_basic_not_BadData (type_error : Py.exn) (v : PyObj.t) :
  Py.is_BadData type_error = false ->
  PyObj.is_integer v = false ->
  exists e, FloatStrategy.from_basic type_error v = Py.Raise e /\
            Py.is_BadData e = false.
Proof.
  intros He Hv. exists type_error. split; [|exact He].
  apply float_from_basic_not_integer. exact Hv.
Qed.

(** C3, at the failing inputs. [from_basic] of a string, of a float
    or of None raises whatever [check_type] raises, unchanged; only
    errors raised inside the [try] are turned into BadData. *)
Theorem float_from_basic_non_integer (type_error : Py.exn) :
  FloatStrategy.from_basic type_error (PyObj.PyStr "abc") = Py.Raise type_error /\
  FloatStrategy.from_basic type_error (PyObj.PyFloat Float.one) = Py.Raise type_error /\
  FloatStrategy.from_basic type_error PyObj.PyNone = Py.Raise type_error /\
  FloatStrategy.from_basic type_error (PyObj.PyInt (-1)) =
    Py.Raise (Py.BadData "argument out of range") /\
  IntStrategy.from_basic (PyObj.PyStr "abc") =
    Py.Raise (Py.BadData "value is not an instance of the expected type").
Proof.
  repeat split.
Qed.

(** C10. The generic float [simplify] yields nothing for -0.0, because
    [-0.0 == 0.0] holds; so +0.0 is not among the candidates of -0.0,
    although the two are different floats with different basic forms. *)
Theorem float_simplify_negative_zero (maxint : option Z) (R : PyRandom.t)
    (type_error : Py.exn) :
  let s := FloatStrategy.__init__ maxint R in
  FloatStrategy.simplify maxint s Float.neg_zero = [] /\
  FloatStrategy.simplify_end maxint s Float.neg_zero = Py.Ok tt /\
  Float.eqb Float.neg_zero Float.zero = true /\
  ~ In Float.zero (FloatStrategy.simplify maxint s Float.neg_zero) /\
  Float.neg_zero <> Float.zero /\
  FloatStrategy.to_basic type_error (PyObj.PyFloat Float.neg_zero) = Py.Ok (PyObj.PyInt (2 ^ 63)) /\
  FloatStrategy.to_basic type_error (PyObj.PyFloat Float.zero) = Py.Ok (PyObj.PyInt 0).
Proof.
  cbv zeta.
  assert (H : FloatStrategy.simplify_body maxint (FloatStrategy.__init__ maxint R)
                Float.neg_zero = ([], Py.Ok tt))
    by (vm_compute; reflexivity).
  unfold FloatStrategy.simplify, FloatStrategy.simplify_end. rewrite H.
  repeat split; try (vm_compute; reflexivity).
  - intros [].
  - vm_compute. discriminate.
Qed.

(* ================================================================== *)
(** * Properties: conversions between floats and integers *)
(* ================================================================== *)

Lemma digits2_bounds (p : positive) :
  2 ^ (Zpos (digits2_pos p) - 1) <= Zpos p < 2 ^ Zpos (digits2_pos p).
Proof.
  induction p as [p IH|p IH|]; cbn [digits2_pos].
  - rewrite Pos2Z.inj_succ, Pos2Z.inj_xI.
    replace (Z.succ (Z.pos (digits2_pos p)) - 1) with (Z.succ (Z.pos (digits2_pos p) - 1)) by lia.
    rewrite !Z.pow_succ_r by lia.
    destruct IH as [IH1 IH2]. revert IH1 IH2.
    generalize (2 ^ (Z.pos (digits2_pos p) - 1)) (2 ^ Z.pos (digits2_pos p)). lia.
  - rewrite Pos2Z.inj_succ. change (Z.pos p~0) with (2 * Z.pos p).
    replace (Z.succ (Z.pos (digits2_pos p)) - 1) with (Z.succ (Z.pos (digits2_pos p) - 1)) by lia.
    rewrite !Z.pow_succ_r by lia.
    destruct IH as [IH1 IH2]. revert IH1 IH2.
    generalize (2 ^ (Z.pos (digits2_pos p) - 1)) (2 ^ Z.pos (digits2_pos p)). lia.
  - simpl. lia.
Qed.

Lemma digits2_unique (p : positive) (d : Z) :
  2 ^ (d - 1) <= Zpos p < 2 ^ d -> Zpos (digits2_pos p) = d.
Proof.
  intros [Hlo Hhi]. pose proof (digits2_bounds p) as [Dlo Dhi].
  assert (0 < d).
  { destruct (Z_lt_le_dec 0 d); [assumption|].
    assert (2 ^ d <= 2 ^ 0) by (destruct (Z_lt_le_dec d 0); [rewrite Z.pow_neg_r by lia; simpl; lia | apply Z.pow_le_mono_r; lia]).
    simpl in *. lia. }
  destruct (Z.lt_trichotomy (Zpos (digits2_pos p)) d) as [L|[E|G]]; [|exact E|].
  - assert (2 ^ Zpos (digits2_pos p) <= 2 ^ (d - 1)) by (apply Z.pow_le_mono_r; lia). lia.
  - assert (2 ^ d <= 2 ^ (Zpos (digits2_pos p) - 1)) by (apply Z.pow_le_mono_r; lia). lia.
Qed.

Lemma shr_1_even (z : Z) :
  0 <= z -> shr_1 {| shr_m := 2 * z; shr_r := false; shr_s := false |} =
    {| shr_m := z; shr_r := false; shr_s := false |}.
Proof. intros H. destruct z as [|p|p]; [reflexivity|reflexivity|lia]. Qed.


Lemma iter_pos_shr_exact (k : positive) (z : Z) :
  0 <= z ->
  SpecFloat.iter_pos shr_1 k {| shr_m := z * 2 ^ Zpos k; shr_r := false; shr_s := false |} =
    {| shr_m := z; shr_r := false; shr_s := false |}.
Proof.
  revert z. induction k as [k IH|k IH|]; intros z Hz; cbn [SpecFloat.iter_pos].
  - replace (z * 2 ^ Zpos k~1) with (2 * (z * 2 ^ Zpos k * 2 ^ Zpos k)).
    2:{ rewrite (Pos2Z.inj_xI k).
        replace (2 * Zpos k + 1) with (Zpos k + Zpos k + 1) by lia.
        rewrite !Z.pow_add_r by lia. rewrite Z.pow_1_r. ring. }
    assert (0 <= 2 ^ Zpos k) by (apply Z.pow_nonneg; lia).
    rewrite shr_1_even by nia. rewrite IH by nia. apply IH. exact Hz.
  - replace (z * 2 ^ Zpos k~0) with (z * 2 ^ Zpos k * 2 ^ Zpos k).
    2:{ rewrite (Pos2Z.inj_xO k).
        replace (2 * Zpos k) with (Zpos k + Zpos k) by lia.
        rewrite Z.pow_add_r by lia. ring. }
    assert (0 <= 2 ^ Zpos k) by (apply Z.pow_nonneg; lia).
    rewrite IH by nia. apply IH. exact Hz.
  - change (2 ^ 1) with 2. rewrite Z.mul_comm. apply shr_1_even. exact Hz.
Qed.

(** An integer [m * 2^e] with [m] of 53 digits converts exactly. *)
Lemma binary_round_exact_big (s : bool) (m p : positive) (e : Z) :
  2 ^ 52 <= Zpos m < 2 ^ 53 -> 0 <= e <= 971 ->
  Zpos p = Zpos m * 2 ^ e ->
  binary_round Float.prec Float.emax s p 0 = S754_finite s m e.
Proof.
  intros Hm He Hp.
  assert (Hd : Zpos (digits2_pos p) = 53 + e).
  { apply digits2_unique. rewrite Hp.
    replace (53 + e - 1) with (52 + e) by lia. rewrite !Z.pow_add_r by lia.
    assert (0 < 2 ^ e) by (apply Z.pow_pos_nonneg; lia). nia. }
  assert (Hdm : Zpos (digits2_pos m) = 53) by (apply digits2_unique; simpl; lia).
  unfold binary_round. rewrite Hd.
  unfold fexp, emin, Float.prec, Float.emax.
  replace (Z.max (53 + e + 0 - 53) (3 - 1024 - 53)) with e by lia.
  unfold shl_align. replace (e - 0) with e by lia.
  assert (Hsh : match e with Z.neg d => (Pos.iter xO p d, e) | _ => (p, 0) end = (p, 0))
    by (destruct e; [reflexivity|reflexivity|lia]).
  rewrite Hsh. unfold binary_round_aux, shr_fexp. cbn [Zdigits2]. rewrite Hd.
  unfold fexp, emin.
  replace (Z.max (53 + e + 0 - 53) (3 - 1024 - 53) - 0) with e by lia.
  cbn [shr_record_of_loc].
  destruct e as [|k|k]; [| |lia].
  - cbn [shr shr_m loc_of_shr_record round_nearest_even Zdigits2].
    assert (p = m) by lia. subst p. rewrite Hdm.
    cbn. reflexivity.
  - cbn [shr]. rewrite Hp, iter_pos_shr_exact by lia.
    cbn [shr_m loc_of_shr_record round_nearest_even Zdigits2 shr_record_of_loc]. rewrite Hdm.
    replace (Z.max (53 + (0 + Z.pos k) - 53) (3 - 1024 - 53) - (0 + Z.pos k)) with 0 by lia.
    cbn [shr shr_m]. replace (0 + Z.pos k <=? 1024 - 53) with true by (symmetry; apply Z.leb_le; lia).
    reflexivity.
Qed.

Lemma iter_xO_pow (p d : positive) :
  Zpos (Pos.iter xO p d) = Zpos p * 2 ^ Zpos d.
Proof.
  induction d as [|d IH] using Pos.peano_ind.
  - simpl. lia.
  - rewrite Pos.iter_succ, Pos2Z.inj_succ, Z.pow_succ_r by lia.
    rewrite (Pos2Z.inj_xO (Pos.iter xO p d)), IH. ring.
Qed.

(** An integer below [2^53] converts to a finite float. *)
Lemma binary_round_small (s : bool) (p : positive) :
  Zpos p < 2 ^ 53 ->
  exists m e, binary_round Float.prec Float.emax s p 0 = S754_finite s m e.
Proof.
  intros Hp. pose proof (digits2_bounds p) as [Dlo Dhi].
  set (D := Zpos (digits2_pos p)) in *.
  assert (HD : 1 <= D <= 53).
  { split; [unfold D; lia|].
    destruct (Z_le_gt_dec D 53) as [|G]; [assumption|].
    assert (2 ^ 53 <= 2 ^ (D - 1)) by (apply Z.pow_le_mono_r; lia). lia. }
  unfold binary_round. fold D.
  unfold fexp, emin, Float.prec, Float.emax.
  replace (Z.max (D + 0 - 53) (3 - 1024 - 53)) with (D - 53) by lia.
  assert (Hal : exists mz, shl_align p 0 (D - 53) = (mz, D - 53) /\
                           Zpos mz = Zpos p * 2 ^ (53 - D)).
  { unfold shl_align. replace (D - 53 - 0) with (D - 53) by lia.
    destruct (D - 53) as [|k|k] eqn:E; [|lia|].
    - exists p. split; [reflexivity|]. replace (53 - D) with 0 by lia. simpl. lia.
    - exists (Pos.iter xO p k). split; [reflexivity|].
      rewrite iter_xO_pow. f_equal. f_equal. lia. }
  destruct Hal as (mz & -> & Hmz).
  assert (Hdz : Zpos (digits2_pos mz) = 53).
  { apply digits2_unique. rewrite Hmz.
    assert (E1 : 2 ^ (53 - 1) = 2 ^ (D - 1) * 2 ^ (53 - D))
      by (rewrite <- Z.pow_add_r by lia; f_equal; lia).
    assert (E2 : 2 ^ 53 = 2 ^ D * 2 ^ (53 - D))
      by (rewrite <- Z.pow_add_r by lia; f_equal; lia).
    rewrite E1, E2.
    assert (0 < 2 ^ (53 - D)) by (apply Z.pow_pos_nonneg; lia). nia. }
  unfold binary_round_aux, shr_fexp. cbn [Zdigits2 shr_record_of_loc]. rewrite Hdz.
  unfold fexp, emin.
  replace (Z.max (53 + (D - 53) - 53) (3 - 1024 - 53) - (D - 53)) with 0 by lia.
  cbn [shr shr_m loc_of_shr_record round_nearest_even Zdigits2 shr_record_of_loc].
  rewrite Hdz.
  replace (Z.max (53 + (D - 53) - 53) (3 - 1024 - 53) - (D - 53)) with 0 by lia.
  cbn [shr shr_m].
  replace (D - 53 <=? 1024 - 53) with true by (symmetry; apply Z.leb_le; lia).
  exists mz, (D - 53). reflexivity.
Qed.

(** The exponent and fraction fields of a bit pattern, and the pattern
    from them and the sign. *)
Lemma bits_fields (x : Float.t) :
  let ef := Z.land (Z.shiftr (Float.bits x) 52) 2047 in
  let f := Z.land (Float.bits x) (2 ^ 52 - 1) in
  0 <= ef < 2048 /\ 0 <= f < 2 ^ 52 /\
  (Float.bits x = ef * 2 ^ 52 + f \/ Float.bits x = 2 ^ 63 + ef * 2 ^ 52 + f).
Proof.
  cbv zeta.
  change 2047 with (Z.ones 11). change (2 ^ 52 - 1) with (Z.ones 52).
  rewrite !Z.land_ones, Z.shiftr_div_pow2 by lia.
  pose proof (bits_range x) as Hb.
  pose proof (Z.div_mod (Float.bits x) (2 ^ 52) ltac:(lia)) as Hdm.
  pose proof (Z.mod_pos_bound (Float.bits x) (2 ^ 52) ltac:(lia)) as Hf.
  pose proof (Z.div_mod (Float.bits x / 2 ^ 52) (2 ^ 11) ltac:(lia)) as Hdm2.
  pose proof (Z.mod_pos_bound (Float.bits x / 2 ^ 52) (2 ^ 11) ltac:(lia)) as He.
  assert (Hq : 0 <= Float.bits x / 2 ^ 52 < 2 ^ 12).
  { split; [apply Z.div_pos; lia|]. apply Z.div_lt_upper_bound; [lia|].
    change (2 ^ 52 * 2 ^ 12) with (2 ^ 64). lia. }
  assert (Hs : 0 <= Float.bits x / 2 ^ 52 / 2 ^ 11 < 2).
  { split; [apply Z.div_pos; lia|]. apply Z.div_lt_upper_bound; [lia|].
    change (2 ^ 11 * 2) with (2 ^ 12). lia. }
  remember (Float.bits x / 2 ^ 52) as q eqn:Eq.
  remember (q mod 2 ^ 11) as ef eqn:Eef.
  remember (Float.bits x mod 2 ^ 52) as f eqn:Ef.
  remember (q / 2 ^ 11) as sg eqn:Esg.
  change (2 ^ 11) with 2048 in *.
  split; [lia|]. split; [lia|].
  assert (sg = 0 \/ sg = 1) as [-> | ->] by lia; [left|right]; lia.
Qed.

(** The decoding, over the two fields. *)
Lemma to_spec_fields (x : Float.t) :
  exists ef f,
    0 <= ef < 2048 /\ 0 <= f < 2 ^ 52 /\
    (Float.bits x = ef * 2 ^ 52 + f \/ Float.bits x = 2 ^ 63 + ef * 2 ^ 52 + f) /\
    Float.to_spec x =
      (let s := Z.testbit (Float.bits x) 63 in
       if ef =? 0 then
         match f with
         | Zpos m => S754_finite s m (-1074)
         | _ => S754_zero s
         end
       else if ef =? 2047 then
         (if f =? 0 then S754_infinity s else S754_nan)
       else
         match f + 2 ^ 52 with
         | Zpos m => S754_finite s m (ef - 1075)
         | _ => S754_nan
         end).
Proof.
  destruct (bits_fields x) as (He & Hf & Hb).
  eexists _, _. repeat split; try eassumption; try apply He; try apply Hf.
Qed.

(** The fields a finite bit pattern decodes to. *)
Lemma to_spec_finite_bounds (x : Float.t) (s : bool) (m : positive) (e : Z) :
  Float.to_spec x = S754_finite s m e ->
  Zpos m < 2 ^ 53 /\ -1074 <= e <= 971 /\ (0 <= e -> 2 ^ 52 <= Zpos m).
Proof.
  destruct (to_spec_fields x) as (ef & f & He & Hf & _ & ->). cbv zeta.
  destruct (ef =? 0) eqn:E0.
  - destruct f as [|q|q]; intros H; try discriminate H.
    inversion H; subst. lia.
  - apply Z.eqb_neq in E0. destruct (ef =? 2047) eqn:E1.
    + destruct (f =? 0); intros H; discriminate H.
    + apply Z.eqb_neq in E1.
      destruct (f + 2 ^ 52) as [|q|q] eqn:Ef; intros H; try discriminate H.
      inversion H; subst. lia.
Qed.

(** There are two infinities and two zeros. *)
Lemma isinf_cases (x : Float.t) :
  Float.isinf x = true -> x = Float.inf \/ x = Float.neg_inf.
Proof.
  unfold Float.isinf.
  destruct (to_spec_fields x) as (ef & f & He & Hf & Hb & ->). cbv zeta.
  intros H.
  assert (Hvals : ef = 2047 /\ f = 0).
  { destruct (ef =? 0) eqn:E0.
    - destruct f; discriminate H.
    - destruct (ef =? 2047) eqn:E1.
      + apply Z.eqb_eq in E1. destruct (f =? 0) eqn:E2; [|discriminate H].
        apply Z.eqb_eq in E2. auto.
      + destruct (f + 2 ^ 52); discriminate H. }
  destruct Hvals as [-> ->]. rewrite <- (of_bits_bits x).
  destruct Hb as [-> | ->]; [left|right]; reflexivity.
Qed.

Lemma zero_cases (x : Float.t) :
  Float.eqb x Float.zero = true -> x = Float.zero \/ x = Float.neg_zero.
Proof.
  unfold Float.eqb. change (Float.to_spec Float.zero) with (S754_zero false).
  destruct (to_spec_fields x) as (ef & f & He & Hf & Hb & ->). cbv zeta.
  intros H.
  assert (Hvals : ef = 0 /\ f = 0).
  { destruct (ef =? 0) eqn:E0.
    - apply Z.eqb_eq in E0. destruct f; [auto | | lia].
      destruct (Z.testbit (Float.bits x) 63); discriminate H.
    - destruct (ef =? 2047) eqn:E1.
      + destruct (f =? 0); [|discriminate H].
        destruct (Z.testbit (Float.bits x) 63); discriminate H.
      + destruct (f + 2 ^ 52); try discriminate H.
        destruct (Z.testbit (Float.bits x) 63); discriminate H. }
  destruct Hvals as [-> ->]. rewrite <- (of_bits_bits x).
  destruct Hb as [-> | ->]; [left|right]; reflexivity.
Qed.

(** [float(int(x))] never overflows: the truncation of a finite float
    converts back to a float. *)
Lemma of_int_to_int (x : Float.t) (n : Z) :
  Float.to_int x = Py.Ok n -> exists y, Float.of_int n = Py.Ok y.
Proof.
  unfold Float.to_int.
  destruct (Float.to_spec x) as [s0|s0| |s m e] eqn:Hx; try discriminate.
  - intros [= <-]. eexists. reflexivity.
  - destruct (to_spec_finite_bounds x s m e Hx) as (Hm & He & Hnorm).
    intros [= <-].
    assert (Hfin : forall sg (p : positive),
               Zpos p = Z.shiftl (Zpos m) e ->
               exists m' e', binary_round Float.prec Float.emax sg p 0 = S754_finite sg m' e').
    { intros sg p Hp. destruct (Z_lt_le_dec e 0) as [Hneg|Hpos].
      - apply binary_round_small. rewrite Hp, Z.shiftl_div_pow2 by lia.
        assert (0 < 2 ^ (- e)) by (apply Z.pow_pos_nonneg; lia).
        apply Z.div_lt_upper_bound; nia.
      - exists m, e. apply binary_round_exact_big; [lia | lia |].
        rewrite Hp, Z.shiftl_mul_pow2 by lia. reflexivity. }
    unfold Float.of_int.
    destruct (Z.shiftl (Zpos m) e) as [|p|p] eqn:Ea.
    + destruct s; eexists; reflexivity.
    + destruct s; [change (- Z.pos p) with (Z.neg p)|]; unfold binary_normalize.
      * destruct (Hfin true p eq_refl) as (m' & e' & ->). eexists; reflexivity.
      * destruct (Hfin false p eq_refl) as (m' & e' & ->). eexists; reflexivity.
    + pose proof (Z.shiftl_nonneg (Zpos m) e). lia.
Qed.

(* ================================================================== *)
(** * Properties: FloatStrategy.simplify *)
(* ================================================================== *)

Section FloatSimplify.

Lemma offsets_for_each (x : Float.t) (n : Z) (ms : list Integer.t) :
  exists r,
    Gen.for_each ms
      (fun m => do v <- Gen.call (Float.add_int x (Integer.value m - n)); Gen.yield v)
    = (offsets x n (map Integer.value ms), r) /\
    (r = Py.Ok tt \/ exists a, r = Py.Raise (Py.OverflowError a)).
Proof.
  induction ms as [|m rest (r & IH & Hr)].
  - exists (Py.Ok tt). split; [reflexivity | left; reflexivity].
  - cbn [Gen.for_each offsets map]. unfold Float.add_int at 1 3.
    destruct (Float.of_int (Integer.value m - n)) as [k|e] eqn:E; py_step.
    + exists r. rewrite IH. split; [reflexivity | exact Hr].
    + exists (Py.Raise e). split; [reflexivity|]. right.
      unfold Float.of_int in E.
      destruct (binary_normalize Float.prec Float.emax (Integer.value m - n) 0 false);
        try discriminate; injection E as <-; eexists; reflexivity.
Qed.

Lemma isnan_not_zero (x : Float.t) :
  Float.isnan x = true -> Float.eqb x Float.zero = false.
Proof.
  unfold Float.isnan, Float.eqb. destruct (Float.to_spec x); try discriminate.
  reflexivity.
Qed.

Lemma isinf_not_zero (x : Float.t) :
  Float.isinf x = true -> Float.eqb x Float.zero = false /\ Float.isnan x = false.
Proof.
  unfold Float.isinf, Float.isnan, Float.eqb.
  destruct (Float.to_spec x) as [| [] | |]; try discriminate; split; reflexivity.
Qed.

Lemma to_int_finite (x : Float.t) :
  Float.isnan x = false -> Float.isinf x = false ->
  exists n, Float.to_int x = Py.Ok n.
Proof.
  unfold Float.isnan, Float.isinf, Float.to_int.
  destruct (Float.to_spec x); try discriminate; intros _ _; eexists; reflexivity.
Qed.

(** The body of the [try], once [int(x)] and [float(n)] are known. *)
Lemma simplify_finite (maxint : option Z) (s : FloatStrategy.t) (x y : Float.t)
    (n : Z) :
  Float.eqb x Float.zero = false ->
  Float.isnan x = false ->
  Float.isinf x = false ->
  Float.to_int x = Py.Ok n ->
  Float.of_int n = Py.Ok y ->
  FloatStrategy.simplify_body maxint s x =
    ((if Float.ltb x Float.zero then [Float.neg x] else []) ++
     [Float.zero] ++
     (if Float.neb x y then [y] else []) ++
     offsets x n
       (map Integer.value
          (FloatStrategy.int_strategy_simplify s (Integer.of_Z maxint n))) ++
     (if Float.ltb Float.one (Float.abs x) then [Float.div x Float.two] else []),
     Py.Ok tt).
Proof.
  intros Hz Hnan Hinf Hn Hy. unfold FloatStrategy.simplify_body.
  rewrite Hz, Hnan, Hinf, Hn.
  destruct (offsets_for_each x n
              (FloatStrategy.int_strategy_simplify s (Integer.of_Z maxint n)))
    as (r & Hfor & Hr).
  unfold Gen.call at 1. cbn [Gen.bind app]. rewrite Hy.
  unfold Gen.call at 1. cbn [Gen.bind app]. rewrite Hfor.
  destruct (Float.ltb x Float.zero), (Float.neb x y),
           (Float.ltb Float.one (Float.abs x));
    destruct Hr as [-> | [a ->]];
    cbn [Gen.when Gen.yield Gen.ret Gen.bind Gen.try_pass app
         FloatStrategy.simplify_handled];
    rewrite ?app_nil_r; reflexivity.
Qed.

End FloatSimplify.

(** C7, as stated, fails for the most negative float: [n = int(x)] is
    about [-1.8e308], the first integer candidate is [-n], and [m - n],
    twice as large, does not convert to a float; the OverflowError ends
    the loop inside the [try], so no offset is yielded at all, where the
    specification has one for each of the candidates. *)
Lemma float_simplify_sequence_counterexample :
  let s := FloatStrategy.__init__ None PyRandom.lcg in
  let int_simplify (n : Z) :=
    map Integer.value (FloatStrategy.int_strategy_simplify s (Integer.Int n)) in
  let x := Float.neg Float.max in
  FloatStrategy.simplify None s x = [Float.max; Float.zero; Float.div x Float.two] /\
  List.length (claimed_float_simplify int_simplify x) = 106%nat /\
  FloatStrategy.simplify None s x <> claimed_float_simplify int_simplify x.
Proof.
  cbv zeta. split; [vm_compute; reflexivity|].
  split; [vm_compute; reflexivity|].
  intros H. apply (f_equal (@List.length Float.t)) in H.
  vm_compute in H. discriminate H.
Qed.

(** C7, amended. The generic float [simplify]: nothing for a zero
    (0.0 or -0.0); 0.0, +inf, -inf for a NaN; the largest finite float
    for +inf and its negation for -inf; and for a finite nonzero [x], with [n = int(x)]
    and [y = float(n)]: [-x] when [x < 0], then 0.0, then [y] when
    [y != x], then [x + (m - n)] for the integer candidates [m] of [n] in
    order, stopping before the first [m] whose [m - n] is too large to
    convert to a float, and finally [x / 2] when [abs(x) > 1]. The
    iteration always ends normally. *)
Theorem float_simplify_sequence (maxint : option Z) (R : PyRandom.t) (x : Float.t) :
  let s := FloatStrategy.__init__ maxint R in
  FloatStrategy.simplify_end maxint s x = Py.Ok tt /\
  (Float.eqb x Float.zero = true ->
     (x = Float.zero \/ x = Float.neg_zero) /\ FloatStrategy.simplify maxint s x = []) /\
  (Float.isnan x = true ->
     FloatStrategy.simplify maxint s x = [Float.zero; Float.inf; Float.neg_inf]) /\
  (Float.isinf x = true ->
     (x = Float.inf /\ FloatStrategy.simplify maxint s x = [Float.max]) \/
     (x = Float.neg_inf /\
      FloatStrategy.simplify maxint s x = [Float.neg Float.max])) /\
  (Float.eqb x Float.zero = false -> Float.isnan x = false ->
   Float.isinf x = false ->
     exists (n : Z) (y : Float.t),
       Float.to_int x = Py.Ok n /\ Float.of_int n = Py.Ok y /\
       FloatStrategy.simplify maxint s x =
         (if Float.ltb x Float.zero then [Float.neg x] else []) ++
         [Float.zero] ++
         (if Float.neb x y then [y] else []) ++
         offsets x n
           (map Integer.value
              (IntStrategy.simplify maxint R (Integer.of_Z maxint n))) ++
         (if Float.ltb Float.one (Float.abs x) then [Float.div x Float.two] else [])).
Proof.
  cbv zeta. set (s := FloatStrategy.__init__ maxint R).
  unfold FloatStrategy.simplify, FloatStrategy.simplify_end.
  destruct (Float.eqb x Float.zero) eqn:Hz.
  { assert (Hb : FloatStrategy.simplify_body maxint s x = ([], Py.Ok tt))
      by (unfold FloatStrategy.simplify_body; rewrite Hz; reflexivity).
    rewrite Hb. repeat split; try discriminate.
    - apply zero_cases. exact Hz.
    - intros Hn. apply isnan_not_zero in Hn. congruence.
    - intros Hi. apply isinf_not_zero in Hi. destruct Hi. congruence. }
  destruct (Float.isnan x) eqn:Hnan.
  { assert (Hb : FloatStrategy.simplify_body maxint s x =
                 ([Float.zero; Float.inf; Float.neg_inf], Py.Ok tt)).
    { unfold FloatStrategy.simplify_body. rewrite Hz, Hnan. vm_compute. reflexivity. }
    rewrite Hb. repeat split; try discriminate.
    intros Hi. apply isinf_not_zero in Hi. destruct Hi. congruence. }
  destruct (Float.isinf x) eqn:Hinf.
  { assert (Hb : FloatStrategy.simplify_body maxint s x =
                 ([Float.copysign Float.max x], Py.Ok tt))
      by (unfold FloatStrategy.simplify_body; rewrite Hz, Hnan, Hinf; reflexivity).
    rewrite Hb. repeat split; try discriminate.
    intros _. destruct (isinf_cases x Hinf) as [-> | ->]; [left|right];
      split; reflexivity. }
  destruct (to_int_finite x Hnan Hinf) as (n & Hn).
  destruct (of_int_to_int x n Hn) as (y & Hy).
  rewrite (simplify_finite maxint s x y n Hz Hnan Hinf Hn Hy).
  repeat split; try discriminate.
  intros _ _ _. exists n, y. repeat split; assumption.
Qed.

Lemma float_simplify_sequence_witness :
  let s := FloatStrategy.__init__ None PyRandom.lcg in
  let x := Float.div (Float.of_Z (-7)) Float.two in
  FloatStrategy.simplify None s Float.neg_zero = [] /\
  FloatStrategy.simplify None s Float.nan = [Float.zero; Float.inf; Float.neg_inf] /\
  FloatStrategy.simplify None s Float.neg_inf = [Float.neg Float.max] /\
  exists (n : Z) (y : Float.t),
    Float.to_int x = Py.Ok n /\ Float.of_int n = Py.Ok y /\
    FloatStrategy.simplify None s x =
      (if Float.ltb x Float.zero then [Float.neg x] else []) ++
      [Float.zero] ++
      (if Float.neb x y then [y] else []) ++
      offsets x n
        (map Integer.value
           (IntStrategy.simplify None PyRandom.lcg (Integer.of_Z None n))) ++
      (if Float.ltb Float.one (Float.abs x) then [Float.div x Float.two] else []).
Proof.
  cbv zeta. split; [|split; [|split]].
  - apply (float_simplify_sequence None PyRandom.lcg Float.neg_zero).
    vm_compute. reflexivity.
  - apply (float_simplify_sequence None PyRandom.lcg Float.nan).
    vm_compute. reflexivity.
  - destruct (float_simplify_sequence None PyRandom.lcg Float.neg_inf)
      as (_ & _ & _ & Hinf & _).
    destruct (Hinf ltac:(vm_compute; reflexivity)) as [[Heq _] | [_ Hs]];
      [vm_compute in Heq; discriminate Heq | exact Hs].
  - apply (float_simplify_sequence None PyRandom.lcg (Float.div (Float.of_Z (-7)) Float.two));
      vm_compute; reflexivity.
Defined.

(* ================================================================== *)
(** * Properties: the Deferred driver *)
(* ================================================================== *)

Section Driver.

Import Twisted.
Local Open Scope nat_scope.

Lemma settles_mono (N N' : nat) (evs : list (nat * outcome)) (done_d : nat)
    (o : outcome) (s : list deferred) :
  N <= N' -> settles N evs done_d o s -> settles N' evs done_d o s.
Proof.
  intros HN. revert s. induction evs as [|[d a] rest IH]; intros s; cbn [settles].
  - auto.
  - intros [Hd Hnext]. split; [exact Hd|].
    intros fuel s1 Hf Hag. destruct (Hnext fuel s1 ltac:(lia) Hag) as (s' & Hrun & Hs').
    exists s'. split; [exact Hrun|]. apply IH. exact Hs'.
Qed.

Lemma settles_stable (N : nat) (evs : list (nat * outcome)) (done_d : nat)
    (o : outcome) (s s2 : list deferred) :
  (forall x, x ∈ done_d :: map fst evs -> s2 !! x = s !! x) ->
  settles N evs done_d o s -> settles N evs done_d o s2.
Proof.
  destruct evs as [|[d a] rest]; cbn [settles map fst].
  - intros Hag Hs. rewrite Hag by set_solver. exact Hs.
  - intros Hag [Hd Hnext]. split; [rewrite Hag by set_solver; exact Hd|].
    intros fuel s1 Hf Hag1. apply Hnext; [exact Hf|].
    intros x Hx. rewrite Hag1 by exact Hx. apply Hag. exact Hx.
Qed.

Lemma runCallbacks_idle (n : nat) (d : nat) (s : list deferred)
    (c r : bool) (o : outcome) (f : nat) :
  s !! d = Some {| called := c; result := o; callbacks := []; running := r;
                   fire_calls := f |} ->
  _runCallbacks (S n) d s = Some (Py.Ok tt, s).
Proof.
  intros Hd. cbn [_runCallbacks]. unfold bind, get. rewrite Hd.
  destruct r; reflexivity.
Qed.

Lemma fire_pending (n : nat) (d : nat) (o : outcome) (s : list deferred) :
  s !! d = Some new_deferred ->
  fire (S (S n)) d o s = Some (Py.Ok tt, <[d := fired o]> s).
Proof.
  intros Hd. cbn [fire]. unfold bind at 1, get at 1. rewrite Hd.
  unfold bind at 1, put at 1. cbn [called new_deferred].
  unfold bind at 1, put at 1.
  rewrite list_insert_insert_eq.
  cbn [callbacks running fire_calls result new_deferred].
  eapply runCallbacks_idle.
  apply list_lookup_insert_eq. eapply lookup_lt_Some; eauto.
Qed.

(** A body that raises at once completes [done_d]. *)
Lemma iter_defer_raises (n : nat) (res : outcome) (k : outcome -> gen) (r : raised)
    (done_d : nat) (s : list deferred) :
  k res = Raises r -> s !! done_d = Some new_deferred ->
  _iter_defer (S (S (S n))) res k done_d s =
    Some (Py.Ok tt, <[done_d := fired (outcome_of r)]> s).
Proof.
  intros Hk Hd. cbn [_iter_defer]. rewrite Hk.
  destruct r; apply fire_pending; exact Hd.
Qed.

Lemma completes_raises (r : raised) : completes 3 (Raises r) [] (outcome_of r).
Proof.
  intros fuel res k done_d s Hf Hk Hd _ _ _.
  destruct fuel as [|[|[|n]]]; try lia.
  exists (<[done_d := fired (outcome_of r)]> s).
  split; [apply iter_defer_raises; assumption|].
  split; [apply list_lookup_insert_eq; eapply lookup_lt_Some; eauto|].
  split; [rewrite length_insert; lia|].
  intros d Hne _ _. apply list_lookup_insert_ne. congruence.
Qed.

(** Registering the continuation on a Deferred that has fired runs it at
    once. *)
Lemma addBoth_fired (N : nat) (k : outcome -> gen) (o o' : outcome)
    (evs : list (nat * outcome)) (d done_d : nat) (c : nat)
    (s : list deferred) (fuel : nat) :
  completes N (k o) evs o' ->
  N + 3 <= fuel ->
  d <> done_d ->
  d ∉ map fst evs ->
  s !! d = Some {| called := true; result := o; callbacks := [];
                   running := false; fire_calls := c |} ->
  s !! done_d = Some new_deferred ->
  (forall x, x ∈ map fst evs -> s !! x = Some new_deferred) ->
  done_d ∉ map fst evs ->
  NoDup (map fst evs) ->
  exists s',
    addBoth fuel d (k, done_d) s = Some (Py.Ok tt, s') /\
    settles N evs done_d o' s' /\
    length s <= length s' /\
    (forall x, x <> done_d -> x <> d -> x ∉ map fst evs -> x < length s ->
               s' !! x = s !! x).
Proof.
  intros Hc Hf Hne Hnd Hd Hdone Hext Hdn Hnodup.
  destruct fuel as [|[|fuel]]; try lia.
  cbn [addBoth]. unfold bind at 1, get at 1. rewrite Hd.
  unfold bind at 1, put at 1. cbn [called result callbacks running fire_calls app].
  cbn [_runCallbacks]. unfold bind at 1, get at 1.
  assert (Hlen : d < length s) by (eapply lookup_lt_Some; eauto).
  rewrite list_lookup_insert_eq by exact Hlen.
  cbn [called result callbacks running fire_calls].
  unfold bind at 1, put at 1. rewrite list_insert_insert_eq.
  set (s1 := <[d := _]> s).
  assert (Hl1 : length s1 = length s) by (unfold s1; apply length_insert).
  destruct (Hc fuel o k done_d s1 ltac:(lia) eq_refl)
    as (s2 & Hrun & Hset & Hl2 & Hfr2); try assumption.
  { unfold s1. rewrite list_lookup_insert_ne by exact Hne. exact Hdone. }
  { intros x Hx. unfold s1. rewrite list_lookup_insert_ne; [auto|].
    intros ->. contradiction. }
  rewrite Hrun. unfold bind at 1, get at 1.
  assert (Hd_s2 : s2 !! d = s1 !! d).
  { apply Hfr2; [exact Hne | exact Hnd | lia]. }
  rewrite Hd_s2. unfold s1 at 1. rewrite list_lookup_insert_eq by exact Hlen.
  unfold bind at 1, put at 1. cbn [called result callbacks running fire_calls callback_result].
  set (s3 := <[d := _]> s2).
  exists s3. split.
  { destruct fuel as [|fuel']; [lia|].
    eapply runCallbacks_idle.
    unfold s3. apply list_lookup_insert_eq. lia. }
  split.
  { apply (settles_stable N evs done_d o' s2); [|exact Hset].
    intros x Hx. unfold s3. apply list_lookup_insert_ne.
    intros ->. apply elem_of_cons in Hx. destruct Hx as [Hx|Hx]; [congruence|contradiction]. }
  split.
  { unfold s3. rewrite length_insert. lia. }
  intros x Hn1 Hn2 Hn3 Hlt. unfold s3.
  rewrite list_lookup_insert_ne by congruence.
  rewrite Hfr2 by (try assumption; lia).
  unfold s1. apply list_lookup_insert_ne. congruence.
Qed.

Lemma lookup_fresh (s : list deferred) (D : deferred) :
  (s ++ [D]) !! length s = Some D.
Proof. apply list_lookup_middle. reflexivity. Qed.

Lemma lookup_pending_lt (s : list deferred) (x : nat) (D : deferred) :
  s !! x = Some D -> x < length s.
Proof. intros H. eapply lookup_lt_Some; eauto. Qed.

(** A plain value yielded by the body is wrapped in a fired Deferred and
    sent straight back in. *)
Lemma completes_yield_value (N : nat) (v : PyObj.t) (k' : outcome -> gen)
    (evs : list (nat * outcome)) (o : outcome) :
  completes N (k' (Success v)) evs o ->
  completes (N + 7) (Yields (Value v) k') evs o.
Proof.
  intros Hc fuel res k done_d s Hf Hk Hd Hext Hdn Hnodup.
  assert (Hlt : done_d < length s) by (eapply lookup_lt_Some; eauto).
  assert (Hextlt : forall x, x ∈ map fst evs -> x < length s)
    by (intros x Hx; eapply lookup_lt_Some; eauto).
  destruct fuel as [|[|[|[|n]]]]; try lia.
  cbn [_iter_defer]. rewrite Hk. cbn [defer_driver].
  unfold bind at 1. unfold bind at 1. unfold alloc at 1. unfold bind at 1.
  rewrite fire_pending by apply lookup_fresh.
  unfold ret at 1.
  set (s1 := <[length s := fired (Success v)]> (s ++ [new_deferred])).
  assert (Hs1 : forall x, x < length s -> s1 !! x = s !! x).
  { intros x Hx. unfold s1. rewrite list_lookup_insert_ne by lia.
    apply lookup_app_l. exact Hx. }
  destruct (addBoth_fired N k' (Success v) o evs (length s) done_d 1 s1 (S (S (S n))))
    as (s' & Hrun & Hset & Hl' & Hfr'); try lia; try assumption.
  { intros Hx. apply Hextlt in Hx. lia. }
  { unfold s1. apply list_lookup_insert_eq. rewrite length_app. simpl. lia. }
  { rewrite Hs1 by exact Hlt. exact Hd. }
  { intros x Hx. rewrite Hs1 by auto. auto. }
  exists s'. split; [exact Hrun|].
  split; [apply (settles_mono N); [lia | exact Hset]|].
  assert (Hl1 : length s1 = S (length s)).
  { unfold s1. rewrite length_insert, length_app. simpl. lia. }
  split; [lia|].
  intros x Hne Hnx Hxl. rewrite Hfr' by (try assumption; lia). apply Hs1. exact Hxl.
Qed.

(** A generator yielded by the body is driven first; when it ends without
    waiting, its outcome is what the body is resumed with. *)
Lemma completes_yield_gen (N2 N : nat) (g2 : gen) (k' : outcome -> gen)
    (evs : list (nat * outcome)) (o2 o : outcome) :
  completes N2 g2 [] o2 ->
  completes N (k' o2) evs o ->
  completes (N2 + N + 7) (Yields (Generator g2) k') evs o.
Proof.
  intros Hc2 Hc fuel res k done_d s Hf Hk Hd Hext Hdn Hnodup.
  assert (Hlt : done_d < length s) by (eapply lookup_lt_Some; eauto).
  assert (Hextlt : forall x, x ∈ map fst evs -> x < length s)
    by (intros x Hx; eapply lookup_lt_Some; eauto).
  destruct fuel as [|[|[|[|n]]]]; try lia.
  cbn [_iter_defer]. rewrite Hk. cbn [defer_driver].
  unfold bind at 1. unfold bind at 1. unfold alloc at 1. unfold bind at 1.
  destruct (Hc2 (S (S n)) (Success PyObj.PyNone) (fun _ => g2) (length s)
              (s ++ [new_deferred]) ltac:(lia) eq_refl (lookup_fresh s _))
    as (s1 & Hrun1 & Hd1 & Hl1 & Hfr1).
  { intros x Hx. cbn in Hx. set_solver. }
  { cbn. set_solver. }
  { cbn. constructor. }
  cbn [settles] in Hd1.
  rewrite Hrun1. unfold ret at 1.
  rewrite length_app in Hl1, Hfr1. simpl in Hl1, Hfr1.
  assert (Hs1 : forall x, x < length s -> s1 !! x = s !! x).
  { intros x Hx. rewrite Hfr1; [apply lookup_app_l; exact Hx | lia | cbn; set_solver | lia]. }
  destruct (addBoth_fired N k' o2 o evs (length s) done_d 1 s1 (S (S (S n))))
    as (s' & Hrun & Hset & Hl' & Hfr'); try lia; try assumption.
  { intros Hx. apply Hextlt in Hx. lia. }
  { rewrite Hs1 by exact Hlt. exact Hd. }
  { intros x Hx. rewrite Hs1 by auto. auto. }
  exists s'. split; [exact Hrun|].
  split; [apply (settles_mono N); [lia | exact Hset]|].
  split; [lia|].
  intros x Hne Hnx Hxl. rewrite Hfr' by (try assumption; lia). apply Hs1. exact Hxl.
Qed.

(** Firing the Deferred a body waits on resumes the body. *)
Lemma fire_waiting (N : nat) (k : outcome -> gen) (a o : outcome)
    (evs : list (nat * outcome)) (d done_d : nat) (s : list deferred) (fuel : nat) :
  completes N (k a) evs o ->
  N + 3 <= fuel ->
  d <> done_d ->
  d ∉ map fst evs ->
  s !! d = Some (waiting k done_d) ->
  s !! done_d = Some new_deferred ->
  (forall x, x ∈ map fst evs -> s !! x = Some new_deferred) ->
  done_d ∉ map fst evs ->
  NoDup (map fst evs) ->
  exists s',
    fire fuel d a s = Some (Py.Ok tt, s') /\ settles N evs done_d o s'.
Proof.
  intros Hc Hf Hne Hnd Hd Hdone Hext Hdn Hnodup.
  destruct fuel as [|[|fuel]]; try lia.
  assert (Hlen : d < length s) by (eapply lookup_lt_Some; eauto).
  cbn [fire]. unfold bind at 1, get at 1. rewrite Hd.
  unfold bind at 1, put at 1. cbn [called waiting].
  unfold bind at 1, put at 1. rewrite list_insert_insert_eq.
  cbn [_runCallbacks]. unfold bind at 1, get at 1.
  rewrite list_lookup_insert_eq by exact Hlen.
  cbn [called result callbacks running fire_calls waiting].
  unfold bind at 1, put at 1. rewrite list_insert_insert_eq.
  set (s1 := <[d := _]> s).
  assert (Hl1 : length s1 = length s) by (unfold s1; apply length_insert).
  destruct (Hc fuel a k done_d s1 ltac:(lia) eq_refl)
    as (s2 & Hrun & Hset & Hl2 & Hfr2); try assumption.
  { unfold s1. rewrite list_lookup_insert_ne by exact Hne. exact Hdone. }
  { intros x Hx. unfold s1. rewrite list_lookup_insert_ne; [auto|].
    intros ->. contradiction. }
  rewrite Hrun. unfold bind at 1, get at 1.
  assert (Hd_s2 : s2 !! d = s1 !! d).
  { apply Hfr2; [exact Hne | exact Hnd | lia]. }
  rewrite Hd_s2. unfold s1 at 1. rewrite list_lookup_insert_eq by exact Hlen.
  unfold bind at 1, put at 1. cbn [called result callbacks running fire_calls callback_result].
  set (s3 := <[d := _]> s2).
  exists s3. split.
  { destruct fuel as [|fuel']; [lia|].
    eapply runCallbacks_idle.
    unfold s3. apply list_lookup_insert_eq. lia. }
  apply (settles_stable N evs done_d o s2); [|exact Hset].
  intros x Hx. unfold s3. apply list_lookup_insert_ne.
  intros ->. apply elem_of_cons in Hx. destruct Hx as [Hx|Hx]; [congruence|contradiction].
Qed.

(** A pending Deferred yielded by the body suspends it: the continuation
    is registered, and runs when the Deferred fires. *)
Lemma completes_yield_deferred (N : nat) (d : nat) (a : outcome)
    (k' : outcome -> gen) (evs : list (nat * outcome)) (o : outcome) :
  completes N (k' a) evs o ->
  completes (N + 3) (Yields (DeferredRef d) k') ((d, a) :: evs) o.
Proof.
  intros Hc fuel res k done_d s Hf Hk Hd Hext Hdn Hnodup.
  cbn [map fst] in Hext, Hdn, Hnodup.
  apply NoDup_cons in Hnodup. destruct Hnodup as [Hnd Hnodup].
  assert (Hdd : d <> done_d) by (intros ->; apply Hdn; left).
  assert (Hdn' : done_d ∉ map fst evs) by (intros Hx; apply Hdn; right; exact Hx).
  assert (Hpd : s !! d = Some new_deferred) by (apply Hext; left).
  assert (Hlen : d < length s) by (eapply lookup_lt_Some; eauto).
  destruct fuel as [|[|n]]; try lia.
  cbn [_iter_defer]. rewrite Hk. unfold bind at 1, ret at 1.
  cbn [addBoth]. unfold bind at 1, get at 1. rewrite Hpd.
  unfold bind at 1, put at 1. cbn [called result callbacks running fire_calls new_deferred app].
  unfold ret.
  set (s1 := <[d := _]> s).
  exists s1. split; [reflexivity|].
  assert (Hs1 : forall x, x <> d -> s1 !! x = s !! x)
    by (intros x Hx; unfold s1; apply list_lookup_insert_ne; congruence).
  split.
  { cbn [settles]. split; [rewrite Hs1 by congruence; exact Hd|].
    intros fuel s2 Hf2 Hag.
    destruct (fire_waiting N k' a o evs d done_d s2 fuel Hc ltac:(lia) Hdd Hnd)
      as (s' & Hrun & Hset); try assumption.
    - rewrite Hag by (right; left). unfold s1.
      apply list_lookup_insert_eq. exact Hlen.
    - rewrite Hag by left. rewrite Hs1 by congruence. exact Hd.
    - intros x Hx. rewrite Hag by (right; right; exact Hx).
      rewrite Hs1; [apply Hext; right; exact Hx|]. intros ->. contradiction.
    - exists s'. split; [exact Hrun|]. apply (settles_mono N); [lia | exact Hset]. }
  split; [unfold s1; rewrite length_insert; lia|].
  intros x _ Hx _. apply Hs1. intros ->. apply Hx. left.
Qed.

Lemma run_nil (g : gen) (r : raised) (evs : list (nat * outcome)) :
  run g [] = Some (r, evs) -> evs = [].
Proof.
  revert r evs.
  induction g as [r0 | y _ k IHk | | | ] using gen_obj_ind
    with (P0 := fun _ => True); try exact I.
  - intros r evs [= _ <-]. reflexivity.
  - intros r evs. destruct y as [v | g2 | d]; cbn [run].
    + apply IHk.
    + destruct (run g2 []) as [[r2 ?]|]; [apply IHk | discriminate].
    + discriminate.
Qed.

(** Every body whose run is defined completes, with the outcome its last
    step decides, after the events of the run. *)
Lemma run_completes (g : gen) (answers : list outcome) (r : raised)
    (evs : list (nat * outcome)) :
  run g answers = Some (r, evs) -> exists N, completes N g evs (outcome_of r).
Proof.
  revert answers r evs.
  induction g as [r0 | y IHy k IHk | v | g2 IHg2 | d]
    using gen_obj_ind
    with (P0 := fun y => match y with
                         | Generator g2 =>
                             forall answers r evs,
                               run g2 answers = Some (r, evs) ->
                               exists N, completes N g2 evs (outcome_of r)
                         | _ => True
                         end).
  - intros answers r evs [= <- <-]. exists 3. apply completes_raises.
  - intros answers r evs Hr. destruct y as [v | g2 | d]; cbn [run] in Hr.
    + destruct (IHk (Success v) answers r evs Hr) as (N & HN).
      exists (N + 7). apply completes_yield_value. exact HN.
    + destruct (run g2 []) as [[r2 evs2]|] eqn:E2; [|discriminate].
      pose proof (run_nil g2 r2 evs2 E2) as ->.
      destruct (IHy [] r2 [] E2) as (N2 & HN2).
      destruct (IHk (outcome_of r2) answers r evs Hr) as (N & HN).
      exists (N2 + N + 7). eapply completes_yield_gen; eassumption.
    + destruct answers as [|a rest]; [discriminate|].
      destruct (run (k a) rest) as [[r' evs']|] eqn:E; [|discriminate].
      injection Hr as <- <-.
      destruct (IHk a rest r' evs' E) as (N & HN).
      exists (N + 3). apply completes_yield_deferred. exact HN.
  - exact I.
  - exact IHg2.
  - exact I.
Qed.

Lemma settles_fire_all (N fuel : nat) (evs : list (nat * outcome)) (done_d : nat)
    (o : outcome) (s : list deferred) :
  N <= fuel -> settles N evs done_d o s ->
  exists s', fire_all fuel evs s = Some s' /\ s' !! done_d = Some (fired o).
Proof.
  intros Hf. revert s. induction evs as [|[d a] rest IH]; intros s; cbn [settles fire_all].
  - intros Hs. exists s. split; [reflexivity | exact Hs].
  - intros [_ Hnext].
    destruct (Hnext fuel s Hf (fun _ _ => eq_refl)) as (s1 & -> & Hs1).
    apply IH. exact Hs1.
Qed.

Lemma settles_pending (N : nat) (evs : list (nat * outcome)) (done_d : nat)
    (o : outcome) (s : list deferred) :
  evs <> [] -> settles N evs done_d o s -> s !! done_d = Some new_deferred.
Proof.
  destruct evs as [|[d a] rest]; [congruence|]. intros _ [H _]. exact H.
Qed.

(** [defer_driver] on a value that is not a generator. *)
Lemma drive_value (v : PyObj.t) (fuel : nat) (s : list deferred) :
  3 <= fuel ->
  drive fuel (Value v) s =
    Some (Py.Ok (fired (Success v)),
          <[length s := fired (Success v)]> (s ++ [new_deferred])).
Proof.
  intros Hf. destruct fuel as [|[|[|n]]]; try lia.
  unfold drive. cbn [defer_driver]. unfold bind at 1, alloc at 1, bind at 1.
  rewrite fire_pending by apply lookup_fresh. unfold ret.
  rewrite list_lookup_insert_eq by (rewrite length_app; simpl; lia).
  reflexivity.
Qed.

(** [defer_driver] on a generator. *)
Lemma drive_generator (N : nat) (g : gen) (evs : list (nat * outcome))
    (o : outcome) (fuel : nat) (s : list deferred) :
  completes N g evs o -> N + 1 <= fuel ->
  (forall d, d ∈ map fst evs -> s !! d = Some new_deferred) ->
  NoDup (map fst evs) ->
  exists s',
    defer_driver fuel (Generator g) s = Some (Py.Ok (length s), s') /\
    settles N evs (length s) o s'.
Proof.
  intros Hc Hf Hext Hnodup. destruct fuel as [|n]; [lia|].
  cbn [defer_driver]. unfold bind at 1, alloc at 1, bind at 1.
  destruct (Hc n (Success PyObj.PyNone) (fun _ => g) (length s)
              (s ++ [new_deferred]) ltac:(lia) eq_refl (lookup_fresh s _))
    as (s1 & Hrun1 & Hset & _); try assumption.
  { intros d Hd. rewrite lookup_app_l; [auto|].
    eapply lookup_lt_Some. apply Hext. exact Hd. }
  { intros Hd. apply Hext in Hd. apply lookup_lt_Some in Hd. lia. }
  rewrite Hrun1. unfold ret. exists s1. split; [reflexivity | exact Hset].
Qed.

End Driver.




(** A body that waits on two pending Deferreds, one after the other, is
    resumed when each fires and completes after the second. *)
Example drive_two_pending :
  let body :=
    Twisted.Yields (Twisted.DeferredRef 0)
      (fun a => Twisted.Yields (Twisted.DeferredRef 1)
         (fun b => match b with
                   | Twisted.Success v => Twisted.Raises (Twisted.Return v)
                   | Twisted.Failure e => Twisted.Raises (Twisted.Error e)
                   end)) in
  let s0 := [Twisted.new_deferred; Twisted.new_deferred] in
  exists s1 s2 s3,
    Twisted.defer_driver 10 (Twisted.Generator body) s0 = Some (Py.Ok 2%nat, s1) /\
    s1 !! 2%nat = Some Twisted.new_deferred /\
    Twisted.fire 10 0 (Twisted.Success (PyObj.PyInt 1)) s1 = Some (Py.Ok tt, s2) /\
    s2 !! 2%nat = Some Twisted.new_deferred /\
    Twisted.fire 10 1 (Twisted.Success (PyObj.PyInt 2)) s2 = Some (Py.Ok tt, s3) /\
    s3 !! 2%nat = Some (fired (Twisted.Success (PyObj.PyInt 2))).
Proof.
  cbv zeta. do 3 eexists.
  split; [vm_compute; reflexivity|].
  split; [vm_compute; reflexivity|].
  split; [vm_compute; reflexivity|].
  split; [vm_compute; reflexivity|].
  split; vm_compute; reflexivity.
Qed.
(* ================================================================== *)
(** * Worked examples *)
(* ================================================================== *)

(** Bit patterns of a few floats, as [struct] gives them. *)
Example float_patterns :
  Float.bits Float.one = 0x3ff0000000000000 /\
  Float.bits Float.half = 0x3fe0000000000000 /\
  Float.bits (Float.neg Float.two) = 0xc000000000000000 /\
  Float.bits (Float.div Float.three (Float.of_Z 11)) = 4598584637693219188 /\
  Float.bits (Float.div (Float.of_Z 7) Float.two) = 0x400c000000000000 /\
  Float.to_spec (Float.of_bits 0x400c000000000000) = S754_finite false (7 * 2 ^ 50) (-51).
Proof.
  repeat split; vm_compute; reflexivity.
Qed.

(** [simplify(3.5)] is 0.0, 3.0, 0.5, 1.5, 2.5, 1.75 and [simplify(-3.5)]
    is 3.5, 0.0, -3.0, 2.5, -0.5, -1.5, -2.5, -1.75. *)
Example float_simplify_3_5 (R : PyRandom.t) :
  let q := fun n d => Float.div (Float.of_Z n) (Float.of_Z d) in
  let s := FloatStrategy.__init__ None R in
  FloatStrategy.simplify None s (q 7 2) =
    [Float.zero; q 3 1; q 1 2; q 3 2; q 5 2; q 7 4] /\
  FloatStrategy.simplify None s (q (-7) 2) =
    [q 7 2; Float.zero; q (-3) 1; q 5 2; q (-1) 2; q (-3) 2; q (-5) 2; q (-7) 4].
Proof.
  cbv zeta. split; vm_compute; reflexivity.
Qed.

(** [simplify(-5)] of the generic integer strategy is 5, 0, -2, -4, -3, -1;
    [simplify(True)] is 1, 0; under Python 2, [simplify(-5L)] starts with
    [int(-5L)], which is -5, and has it again as the opposite of the first
    candidate of [5L]. *)
Example int_simplify_minus_5 (R : PyRandom.t) :
  IntStrategy.simplify None R (Integer.Int (-5)) =
    map Integer.Int [5; 0; -2; -4; -3; -1] /\
  IntStrategy.simplify None R (Integer.Bool true) = [Integer.Int 1; Integer.Int 0] /\
  IntStrategy.simplify None R (Integer.Bool false) = [Integer.Int 0] /\
  IntStrategy.simplify (Some (2 ^ 63 - 1)) R (Integer.Long (-5)) =
    [Integer.Int (-5); Integer.Long 5; Integer.Int (-5); Integer.Int 0;
     Integer.Long (-2); Integer.Int (-4); Integer.Int (-3); Integer.Int (-1)].
Proof. repeat split; vm_compute; reflexivity. Qed.
